(** * VARTA storage integration: a shallow embedding and its properties

    The development follows the three source files of
    [custom_components/varta_storage]:

    - [const.py]    : the state and error code tables and their text lookups
                      (module [Const]);
    - [__init__.py] : [flatten_dataclass] and the two fetch functions with
                      their retry (module [Init]);
    - [sensor.py]   : the Riemann integration sensor and the calculated
                      sensors (module [Sensor]).

    Conventions of the embedding.

    - Python [int] is [Z]; Python [float] is idealised as an exact rational
      [Q] (no rounding error, no NaN, no infinities).  Results on floats are
      therefore stated up to [==] on [Q].
    - A Python [dict] with string keys is a [gmap string _]; the fields of a
      dataclass instance and the items of a dict that is iterated over are
      kept as a list in iteration order.
    - [datetime] values are microseconds since the epoch ([Z]); a calendar
      date in ISO format is a [string].
    - An exception is a value of type [exn]; a function that can raise
      returns a [result].  The object state a method mutates is passed in
      and returned. *)

From Stdlib Require Import ZArith QArith Qround Qabs Qminmax Lqa Lia.
From Stdlib Require Import String Ascii DecimalString.
From stdpp Require Import gmap strings list fin_maps.

Open Scope string_scope.
Open Scope Z_scope.
Open Scope list_scope.

(* ===================================================================== *)
(** * Python values, exceptions, builtins                                 *)
(* ===================================================================== *)

(** The values a device reply or a snapshot can hold.  [VData] is an
    instance of a dataclass, with its fields in declaration order; [VDict]
    is a dict, with its items in iteration order. *)
#[local] Unset Elimination Schemes.
Inductive value : Type :=
| VNone
| VInt (z : Z)
| VFloat (q : Q)
| VStr (s : string)
| VList (xs : list value)
| VDict (items : list (string * value))
| VData (fields : list (string * value)).
#[local] Set Elimination Schemes.

(** A flat mapping from field name to value: a snapshot. *)
Abbreviation snapshot := (gmap string value).

(** [v is None] *)
Definition is_none (v : value) : bool :=
  match v with VNone => true | _ => false end.

Inductive exn_kind : Type :=
| ValueError | TypeError | KeyError | ZeroDivisionError | AttributeError
| ConnectionError | UpdateFailed.

Record exn : Type := Exn { exn_class : exn_kind; exn_msg : string }.

Inductive result (A : Type) : Type :=
| Ok (a : A)
| Raise (e : exn).
Arguments Ok {A} a.
Arguments Raise {A} e.

Definition exn_kind_eqb (a b : exn_kind) : bool :=
  match a, b with
  | ValueError, ValueError | TypeError, TypeError | KeyError, KeyError
  | ZeroDivisionError, ZeroDivisionError | AttributeError, AttributeError
  | ConnectionError, ConnectionError | UpdateFailed, UpdateFailed => true
  | _, _ => false
  end.

(** The builtins of the language the code relies on and that are not part
    of the repository: [str] on an arbitrary object, [float] and [int] on a
    string ([None] stands for the [ValueError] they raise). *)
Class PyBuiltins : Type := {
  py_str : value -> string;
  py_float_of_string : string -> option Q;
  py_int_of_string : string -> option Z
}.

(** [str(n)] for an [int]: the decimal numeral. *)
Definition str_int (z : Z) : string := NilZero.string_of_int (Z.to_int z).

(** [int(q)] for a [float]: truncation toward zero. *)
Definition int_of_float (q : Q) : Z := Z.quot (Qnum q) (Z.pos (Qden q)).

(** A number as the arithmetic operators see it; [None] for a value on
    which [-], [/] and the comparisons with a number raise [TypeError]. *)
Definition as_number (v : value) : option Q :=
  match v with
  | VInt z => Some (inject_Z z)
  | VFloat q => Some q
  | _ => None
  end.

Section Builtins.
Context `{PyBuiltins}.

(** [float(v)] *)
Definition py_float (v : value) : result Q :=
  match v with
  | VInt z => Ok (inject_Z z)
  | VFloat q => Ok q
  | VStr s =>
      match py_float_of_string s with
      | Some q => Ok q
      | None => Raise (Exn ValueError "could not convert string to float")
      end
  | _ => Raise (Exn TypeError "float() argument must be a string or a real number")
  end.

(** [int(v)] *)
Definition py_int (v : value) : result Z :=
  match v with
  | VInt z => Ok z
  | VFloat q => Ok (int_of_float q)
  | VStr s =>
      match py_int_of_string s with
      | Some z => Ok z
      | None => Raise (Exn ValueError "invalid literal for int()")
      end
  | _ => Raise (Exn TypeError "int() argument must be a string or a real number")
  end.
End Builtins.

(** [round(x, n)] on an exact rational: to the nearest multiple of
    [10^-n], ties to the even one. *)
Definition round_half_even (x : Q) : Z :=
  let f := Qfloor x in
  let r := (x - inject_Z f)%Q in
  match (r ?= 1 # 2)%Q with
  | Lt => f
  | Gt => f + 1
  | Eq => if Z.even f then f else f + 1
  end.

Definition py_round (x : Q) (n : nat) : Q :=
  (inject_Z (round_half_even (x * inject_Z (10 ^ Z.of_nat n)))
     / inject_Z (10 ^ Z.of_nat n))%Q.

(* ===================================================================== *)
(** * The environment: device, logger, and the monad of effectful code    *)
(* ===================================================================== *)

(** A request to the [vartastorage] client library.  [Connect] is the
    constructor [vartastorage.VartaStorage(host, port, cgi, user, pw)]; the
    others are the methods the integration calls on the object. *)
Inductive request : Type :=
| Connect (host : string) (port : Z) (cgi : bool) (username password : string)
| GetAllDataModbus
| GetEmsCgi
| GetEnergyCgi
| GetInfoCgi
| GetServiceCgi.

Definition is_connect (r : request) : bool :=
  match r with Connect _ _ _ _ _ => true | _ => false end.

Inductive level : Type := DEBUG | INFO | WARNING | ERROR.

(** The world outside the integration.  The device answers the [n]-th
    request made to it as [oracle n] says: a reply or an exception.
    [trace] and [logged] record the requests made and the log records
    written, newest first. *)
Record world : Type := World {
  oracle : nat -> request -> result value;
  trace : list request;
  logged : list (level * string)
}.

Definition io (A : Type) : Type := world -> result A * world.

Definition ret {A} (a : A) : io A := fun w => (Ok a, w).

Definition raise {A} (e : exn) : io A := fun w => (Raise e, w).

Definition bind {A B} (m : io A) (k : A -> io B) : io B :=
  fun w =>
    match m w with
    | (Ok a, w') => k a w'
    | (Raise e, w') => (Raise e, w')
    end.

Notation "x <- m ;; k" := (bind m (fun x => k))
  (at level 100, m at next level, right associativity).

(** [try: body  except Exception as e: handler(e)] *)
Definition try_except {A} (body : io A) (handler : exn -> io A) : io A :=
  fun w =>
    match body w with
    | (Ok a, w') => (Ok a, w')
    | (Raise e, w') => handler e w'
    end.

(** [try: body  except K as e: handler(e)] for one exception class [K] *)
Definition try_except_of {A} (K : exn_kind) (body : io A) (handler : exn -> io A)
  : io A :=
  fun w =>
    match body w with
    | (Ok a, w') => (Ok a, w')
    | (Raise e, w') =>
        if exn_kind_eqb (exn_class e) K then handler e w' else (Raise e, w')
    end.

Definition lift {A} (r : result A) : io A := fun w => (r, w).

(** One call into the client library. *)
Definition call (r : request) : io value :=
  fun w =>
    (oracle w (length (trace w)) r,
     {| oracle := oracle w; trace := r :: trace w; logged := logged w |}).

(** [LOGGER.<level>(msg)] *)
Definition log (l : level) (msg : string) : io unit :=
  fun w =>
    (Ok tt,
     {| oracle := oracle w; trace := trace w; logged := (l, msg) :: logged w |}).

(** The number of client objects constructed so far: one per attempt. *)
Definition connections (w : world) : nat :=
  length (filter (fun r => is_connect r = true) (trace w)).

(** Attribute access on an object.  Only dataclass instances have the
    attributes the integration asks for. *)
Fixpoint field_get (fields : list (string * value)) (name : string)
  : option value :=
  match fields with
  | [] => None
  | (n, v) :: rest => if String.eqb n name then Some v else field_get rest name
  end.

Fixpoint field_set (fields : list (string * value)) (name : string) (x : value)
  : list (string * value) :=
  match fields with
  | [] => []
  | (n, v) :: rest =>
      if String.eqb n name then (n, x) :: rest
      else (n, v) :: field_set rest name x
  end.

Definition hasattr (obj : value) (name : string) : bool :=
  match obj with
  | VData fields => match field_get fields name with Some _ => true | None => false end
  | _ => false
  end.

Definition getattr (obj : value) (name : string) : result value :=
  match obj with
  | VData fields =>
      match field_get fields name with
      | Some v => Ok v
      | None => Raise (Exn AttributeError name)
      end
  | _ => Raise (Exn AttributeError name)
  end.

Definition setattr (obj : value) (name : string) (x : value) : value :=
  match obj with
  | VData fields => VData (field_set fields name x)
  | _ => obj
  end.

(* ===================================================================== *)
(** * const.py                                                            *)
(* ===================================================================== *)

Module Const.

Definition DOMAIN : string := "varta_storage".

Definition DEFAULT_SCAN_INTERVAL_MODBUS : Z := 3.
Definition DEFAULT_SCAN_INTERVAL_CGI : Z := 10.

(** Integration calculation interval (seconds) *)
Definition INTEGRATION_SCAN_INTERVAL : Z := 60.

Definition VARTA_STATE_MAP : gmap Z string :=
  list_to_map
    [ (0, "Busy (Beschaeftigt)");
      (1, "Run (Betrieb)");
      (2, "Charge (Laden)");
      (3, "Discharge (Entladen)");
      (4, "Standby");
      (5, "Error (Fehler)");
      (6, "Passive (Service)");
      (7, "Islanding (Inselbetrieb)");
      (8, "Grid Outage (Netzausfall)");
      (9, "Self Test (Selbsttest)");
      (10, "Update");
      (11, "Maintenance (Wartung)") ].

Definition VARTA_ERROR_MAP : gmap Z string :=
  list_to_map
    [ (0, "No Error (Kein Fehler)");
      (1, "General Error (Allgemeiner Fehler)");
      (2, "Battery Error (Batteriefehler)");
      (3, "Inverter Error (Wechselrichterfehler)");
      (4, "Grid Error (Netzfehler)");
      (5, "Communication Error (Kommunikationsfehler)");
      (6, "Temperature Error (Temperaturfehler)");
      (7, "Overcurrent (Ueberstrom)");
      (8, "Overvoltage (Ueberspannung)");
      (9, "Undervoltage (Unterspannung)");
      (10, "Overtemperature (Uebertemperatur)");
      (11, "Undertemperature (Untertemperatur)");
      (12, "Isolation Error (Isolationsfehler)");
      (13, "Cell Imbalance (Zellenungleichgewicht)");
      (14, "BMS Error (BMS-Fehler)");
      (15, "EMS Error (EMS-Fehler)");
      (16, "ENS Error (ENS-Fehler)");
      (17, "Fan Error (Luefterfehler)");
      (18, "Fuse Error (Sicherungsfehler)");
      (19, "Relay Error (Relaisfehler)");
      (20, "Sensor Error (Sensorfehler)");
      (255, "Unknown Error (Unbekannter Fehler)") ].

(** [d.get(k, dflt)] on a table keyed by integers *)
Definition table_get (d : gmap Z string) (k : Z) (dflt : string) : string :=
  match d !! k with
  | Some text => text
  | None => dflt
  end.

Definition get_state_text (state_code : option Z) : string :=
  match state_code with
  | None => "Unknown"
  | Some c =>
      table_get VARTA_STATE_MAP c ("Unknown State (" +:+ str_int c +:+ ")")
  end.

Definition get_error_text (error_code : option Z) : string :=
  match error_code with
  | None => "Unknown"
  | Some c =>
      if c =? 0 then "No Error (Kein Fehler)"
      else table_get VARTA_ERROR_MAP c ("Unknown Error (" +:+ str_int c +:+ ")")
  end.

End Const.

(* ===================================================================== *)
(** * __init__.py                                                         *)
(* ===================================================================== *)

Module Init.

(** [d.update(other)]: the entries of [other] overwrite those of [d]. *)
Definition dict_update (d other : snapshot) : snapshot := other ∪ d.

Section Flatten.
Context `{PyBuiltins}.

(** Recursively flatten a dataclass into a flat dictionary.  The two
    loops of the source are the two local fixpoints; the accumulator
    is [flat_dict]. *)
Fixpoint flatten_dataclass (obj : value) (prefix : string) {struct obj}
  : snapshot :=
  match obj with
  | VData fields =>
      (fix over_fields (fs : list (string * value)) (flat_dict : snapshot)
         {struct fs} : snapshot :=
         match fs with
         | [] => flat_dict
         | (name, v) :: rest =>
             over_fields rest
               match v with
               | VData _ => dict_update flat_dict (flatten_dataclass v "")
               | VNone => flat_dict
               | _ => <[name := v]> flat_dict
               end
         end) fields ∅
  | VDict items =>
      (fix over_items (kvs : list (string * value)) (flat_dict : snapshot)
         {struct kvs} : snapshot :=
         match kvs with
         | [] => flat_dict
         | (key, v) :: rest =>
             over_items rest
               match v with
               | VData _ => dict_update flat_dict (flatten_dataclass v "")
               | VNone => flat_dict
               | _ => <[key := v]> flat_dict
               end
         end) items ∅
  | VNone => ∅
  | _ => {[ py_str obj := obj ]}
  end.

(** One iteration of either loop. *)
Definition flatten_step (flat_dict : snapshot) (entry : string * value)
  : snapshot :=
  match entry.2 with
  | VData _ => dict_update flat_dict (flatten_dataclass entry.2 "")
  | VNone => flat_dict
  | _ => <[entry.1 := entry.2]> flat_dict
  end.
End Flatten.

(** ** The two fetch functions of [async_setup_entry] *)

(** [entry.data], after the check of the required fields. *)
Record entry_data : Type := {
  host : string;
  host_cgi : string;
  port : Z;
  username : string;
  password : string;
  cgi : bool;
  scan_interval_modbus : Z;
  scan_interval_cgi : Z
}.

Section Fetch.
Context `{PyBuiltins}.
Variable data : entry_data.

(** The body of either [try] block of the Modbus [sync_update]. *)
Definition modbus_attempt (msg : string) : io value :=
  _ <- call (Connect (host data) (port data) false
               (username data) (password data)) ;;
  _ <- log DEBUG msg ;;
  call GetAllDataModbus.

Definition modbus_sync_update : io snapshot :=
  r <- try_except (modbus_attempt "Getting Modbus data")
         (fun _ =>
            try_except
              (modbus_attempt "Getting Modbus data after first exception")
              (fun e =>
                 _ <- log WARNING
                        ("Can not retrieve Modbus Data from the VARTA Device. "
                           +:+ exn_msg e) ;;
                 raise (Exn UpdateFailed
                          "Can not retrieve Modbus Data from the VARTA Device."))) ;;
  ret (flatten_dataclass r "").

(** The timeout of 10 seconds around the executor job is a matter of
    real time and is not part of the model. *)
Definition async_update_modbus : io snapshot :=
  try_except_of ValueError modbus_sync_update
    (fun _ => raise (Exn UpdateFailed "Error communicating with Modbus API")).

(** Post-process charge cycles if it's a single-element list *)
Definition post_process_cycles (energy_data : value) : result value :=
  match getattr energy_data "total_charge_cycles" with
  | Raise e => Raise e
  | Ok (VList (first :: _)) =>
      Ok (setattr energy_data "total_charge_cycles" first)
  | Ok _ => Ok energy_data
  end.

(** The body of either [try] block of the CGI [sync_update]: the
    container [result] and [ems_data], which is read again after it. *)
Definition cgi_attempt (msg : string) : io (value * value) :=
  let host := if String.eqb (host_cgi data) "" then host data
              else host_cgi data in
  _ <- call (Connect host (port data) true (username data) (password data)) ;;
  _ <- log DEBUG msg ;;
  ems_data <- call GetEmsCgi ;;
  energy_data <- call GetEnergyCgi ;;
  info_data <- call GetInfoCgi ;;
  service_data <- call GetServiceCgi ;;
  energy_data <- lift (post_process_cycles energy_data) ;;
  ret (VData [ ("ems_data", ems_data);
               ("energy_data", energy_data);
               ("info_data", info_data);
               ("service_data", service_data) ],
       ems_data).

(** [if hasattr(ems_data, name) and ems_data.<name> is not None:
       flat_data.update(flatten_dataclass(ems_data.<name>))] *)
Definition merge_nested (ems_data : value) (name : string)
    (flat_data : snapshot) : snapshot :=
  match getattr ems_data name with
  | Ok VNone | Raise _ => flat_data
  | Ok nested => dict_update flat_data (flatten_dataclass nested "")
  end.

Definition cgi_flat_data (fetched : value * value) : snapshot :=
  let flat_data := flatten_dataclass fetched.1 "" in
  let flat_data := merge_nested fetched.2 "wr_data" flat_data in
  let flat_data := merge_nested fetched.2 "emeter_data" flat_data in
  merge_nested fetched.2 "ens_data" flat_data.

Definition cgi_sync_update : io snapshot :=
  fetched <- try_except (cgi_attempt "Getting CGI data")
         (fun _ =>
            try_except
              (cgi_attempt "Getting CGI data after first exception")
              (fun e =>
                 _ <- log WARNING
                        ("Can not retrieve CGI Data from the VARTA Device. "
                           +:+ exn_msg e) ;;
                 raise (Exn UpdateFailed
                          "Can not retrieve CGI Data from the VARTA Device."))) ;;
  ret (cgi_flat_data fetched).

(** The timeout of 15 seconds is not part of the model. *)
Definition async_update_cgi : io snapshot :=
  try_except_of ValueError cgi_sync_update
    (fun _ => raise (Exn UpdateFailed "Error communicating with CGI API")).
End Fetch.

(** ** The coordinator's cache *)

Record coordinator : Type := {
  coordinator_data : option snapshot;
  last_update_success : bool
}.

(** Modelled from the spec: the refresh of the host platform's
    [DataUpdateCoordinator], which is not in the repository.  On success
    the cached snapshot is replaced by the result of [update_method]; a
    failed poll leaves the last good snapshot in place. *)
Definition async_refresh (update_method : io snapshot) (c : coordinator)
    (w : world) : coordinator * world :=
  match update_method w with
  | (Ok d, w') =>
      ({| coordinator_data := Some d; last_update_success := true |}, w')
  | (Raise _, w') =>
      ({| coordinator_data := coordinator_data c;
          last_update_success := false |}, w')
  end.

End Init.

(* ===================================================================== *)
(** * Dictionary reads and arithmetic on snapshot values                  *)
(* ===================================================================== *)

(** [d.get(k)]: [None] when the key is absent. *)
Definition dict_get (d : snapshot) (k : string) : value :=
  match d !! k with
  | Some v => v
  | None => VNone
  end.

(** [d.get(k, dflt)] *)
Definition dict_get_or (d : snapshot) (k : string) (dflt : value) : value :=
  match d !! k with
  | Some v => v
  | None => dflt
  end.

(** The operand of [-], [*], [/], [<=], [abs]: a number, or [TypeError]. *)
Definition number (v : value) : result Q :=
  match as_number v with
  | Some q => Ok q
  | None => Raise (Exn TypeError "unsupported operand type(s)")
  end.

(** [v == 0] *)
Definition equals_zero (v : value) : bool :=
  match as_number v with
  | Some q => Qeq_bool q 0
  | None => false
  end.

(** Truth value of an object, as [x or 0] tests it. *)
Definition truthy (v : value) : bool :=
  match v with
  | VNone => false
  | VInt z => negb (z =? 0)
  | VFloat q => negb (Qeq_bool q 0)
  | VStr s => negb (String.eqb s "")
  | VList xs => match xs with [] => false | _ => true end
  | VDict items => match items with [] => false | _ => true end
  | VData _ => true
  end.

(** [a < b] on rationals, as a boolean. *)
Definition Qlt_bool (a b : Q) : bool :=
  match (a ?= b)%Q with Lt => true | _ => false end.

(* ===================================================================== *)
(** * sensor.py                                                           *)
(* ===================================================================== *)

Module Sensor.

(** The fields of [VartaSensorEntityDescription] the code reads. *)
Record description : Type := {
  key : string;
  source_key : option string
}.

(** The state the host has stored for an entity: [last_state.state] and
    [last_state.attributes]. *)
Record stored_state : Type := {
  state : string;
  attributes : snapshot
}.

(** What a timer callback did with the entity's state in the host. *)
Inductive outcome : Type :=
| NotWritten
| Written (native_value : option Q)
| Failed (e : exn).

(** ** VartaStorageEntity *)

Section Entity.
Context `{PyBuiltins}.

(** [_handle_coordinator_update]: the value that becomes
    [_attr_native_value]. *)
Definition _handle_coordinator_update (d : description) (data : snapshot)
  : result value :=
  match source_key d with
  | None =>
      Raise (Exn ValueError
               "Invalid entity configuration: source_key is not set in varta entity description.")
  | Some sk =>
      let value := dict_get data sk in
      if String.eqb (key d) "powerApparent" && negb (is_none value) then
        match value with
        | VInt z => Ok (VInt (Z.abs z))
        | VFloat q => Ok (VFloat (Qabs q))
        | _ => Raise (Exn TypeError "bad operand type for abs()")
        end
      else if String.eqb (key d) "stateTextDerived" && negb (is_none value) then
        match py_int value with
        | Ok code => Ok (VStr (Const.get_state_text (Some code)))
        | Raise _ => Ok (VStr ("Unknown State (" +:+ py_str value +:+ ")"))
        end
      else if String.eqb (key d) "errorText" && negb (is_none value) then
        match py_int value with
        | Ok code => Ok (VStr (Const.get_error_text (Some code)))
        | Raise _ => Ok (VStr ("Unknown Error (" +:+ py_str value +:+ ")"))
        end
      else Ok value
  end.
End Entity.

(** ** VartaRiemannSensor *)

(** Integration state.  [_last_update] is a [datetime], in microseconds. *)
Record riemann : Type := {
  _total_energy : Q;
  _last_power : option Q;
  _last_update : option Z;
  riemann_attr_native_value : option Q
}.

(** [__init__] *)
Definition riemann_init : riemann :=
  {| _total_energy := 0;
     _last_power := None;
     _last_update := None;
     riemann_attr_native_value := None |}.

(** [(a - b).total_seconds()] for two [datetime]s *)
Definition total_seconds (a b : Z) : Q := (inject_Z (a - b) / 1000000)%Q.

(** The [native_value] property: the state the host records on
    [async_write_ha_state]. *)
Definition riemann_native_value (self : riemann) : Q :=
  if Qeq_bool (_total_energy self) 0 then 0%Q
  else py_round (_total_energy self) 6.

Section Riemann.
Context `{PyBuiltins}.
Variable entity_description : description.

(** The restore step of [async_added_to_hass], with the log records it
    writes. *)
Definition riemann_restore (self : riemann) (last_state : option stored_state)
  : riemann * list (level * string) :=
  match last_state with
  | Some st =>
      match py_float (VStr (state st)) with
      | Ok q =>
          ({| _total_energy := q;
              _last_power := _last_power self;
              _last_update := _last_update self;
              riemann_attr_native_value := riemann_attr_native_value self |},
           [])
      | Raise _ =>
          ({| _total_energy := 0;
              _last_power := _last_power self;
              _last_update := _last_update self;
              riemann_attr_native_value := riemann_attr_native_value self |},
           [(WARNING, "Could not restore state for %s, starting from 0")])
      end
  | None => (self, [])
  end.

(** Perform Riemann sum integration.  [coordinator_data] is
    [self.coordinator.data]; [utcnow] is the reading of the clock. *)
Definition _async_integrate (self : riemann)
    (coordinator_data : option snapshot) (utcnow : Z)
  : riemann * outcome :=
  match coordinator_data with
  | None => (self, NotWritten)
  | Some data =>
      match source_key entity_description with
      | None => (self, NotWritten)
      | Some source_key =>
          let current_power := dict_get data source_key in
          if is_none current_power then (self, NotWritten)
          else
            match py_float current_power with
            | Raise e => (self, Failed e)
            | Ok p =>
                let current_power := Qabs p in
                let current_time := utcnow in
                let total :=
                  match _last_power self, _last_update self with
                  | Some last_power, Some last_update =>
                      let time_delta :=
                        (total_seconds current_time last_update / 3600)%Q in
                      if Qlt_bool 0 time_delta && Qlt_bool time_delta 1 then
                        let avg_power := ((current_power + last_power) / 2)%Q in
                        let energy_increment :=
                          (avg_power * time_delta / 1000)%Q in
                        (_total_energy self + energy_increment)%Q
                      else _total_energy self
                  | _, _ => _total_energy self
                  end in
                let self' :=
                  {| _total_energy := total;
                     _last_power := Some current_power;
                     _last_update := Some current_time;
                     riemann_attr_native_value := Some (py_round total 6) |} in
                (self', Written (Some (riemann_native_value self')))
            end
      end
  end.

(** Restore state, then the initial integration. *)
Definition riemann_async_added_to_hass (self : riemann)
    (last_state : option stored_state)
    (coordinator_data : option snapshot) (utcnow : Z)
  : riemann * outcome * list (level * string) :=
  let restored := riemann_restore self last_state in
  (_async_integrate restored.1 coordinator_data utcnow, restored.2).

(** A run of timer callbacks: each tick carries what the coordinator
    holds and what the clock reads at that moment. *)
Definition integrate_all (self : riemann) (ticks : list (option snapshot * Z))
  : riemann :=
  fold_left (fun s tick => (_async_integrate s tick.1 tick.2).1) ticks self.
End Riemann.

(** ** VartaCalculatedSensor *)

(** Daily tracking state.  The attributes that hold a Python object or
    [None] are kept as a [value]. *)
Record calculated : Type := {
  _daily_import : Q;
  _daily_export : Q;
  _last_import_total : value;
  _last_export_total : value;
  _last_reset_date : value;
  _attr_native_value : option Q
}.

(** [__init__] *)
Definition calculated_init : calculated :=
  {| _daily_import := 0;
     _daily_export := 0;
     _last_import_total := VNone;
     _last_export_total := VNone;
     _last_reset_date := VNone;
     _attr_native_value := None |}.

Definition set_native_value (x : option Q) (self : calculated) : calculated :=
  {| _daily_import := _daily_import self;
     _daily_export := _daily_export self;
     _last_import_total := _last_import_total self;
     _last_export_total := _last_export_total self;
     _last_reset_date := _last_reset_date self;
     _attr_native_value := x |}.

Definition set_last_reset_date (x : value) (self : calculated) : calculated :=
  {| _daily_import := _daily_import self;
     _daily_export := _daily_export self;
     _last_import_total := _last_import_total self;
     _last_export_total := _last_export_total self;
     _last_reset_date := x;
     _attr_native_value := _attr_native_value self |}.

Definition set_import (daily : Q) (last : value) (self : calculated)
  : calculated :=
  {| _daily_import := daily;
     _daily_export := _daily_export self;
     _last_import_total := last;
     _last_export_total := _last_export_total self;
     _last_reset_date := _last_reset_date self;
     _attr_native_value := _attr_native_value self |}.

Definition set_export (daily : Q) (last : value) (self : calculated)
  : calculated :=
  {| _daily_import := _daily_import self;
     _daily_export := daily;
     _last_import_total := _last_import_total self;
     _last_export_total := last;
     _last_reset_date := _last_reset_date self;
     _attr_native_value := _attr_native_value self |}.

(** [self._last_reset_date != today], [today] being a [str] *)
Definition date_differs (d : value) (today : string) : bool :=
  match d with
  | VStr s => negb (String.eqb s today)
  | _ => true
  end.

Definition is_daily_key (k : string) : bool :=
  String.eqb k "dailyNetGridImport" || String.eqb k "dailyNetGridExport".

(** The [extra_state_attributes] property, stored with the state. *)
Definition extra_state_attributes (d : description) (self : calculated)
  : option snapshot :=
  if is_daily_key (key d)
  then Some {[ "last_reset_date" := _last_reset_date self ]}
  else None.

(** Calculate daily net grid import (consumption from grid).  [today] is
    [dt_util.now().date().isoformat()]. *)
Definition _calculate_daily_net_import (self : calculated)
    (cgi_data : snapshot) (today : string) : calculated * result (option Q) :=
  let self :=
    if date_differs (_last_reset_date self) today
    then set_last_reset_date (VStr today) (set_import 0 VNone self)
    else self in
  let current_total := dict_get cgi_data "total_grid_ac_dc" in
  if is_none current_total then (self, Ok (Some (_daily_import self)))
  else
    let added : result Q :=
      if is_none (_last_import_total self) then Ok (_daily_import self)
      else
        match number current_total, number (_last_import_total self) with
        | Ok cur, Ok last =>
            let delta := (cur - last)%Q in
            if Qlt_bool 0 delta then Ok (_daily_import self + delta)%Q
            else Ok (_daily_import self)
        | Raise e, _ | _, Raise e => Raise e
        end in
    match added with
    | Raise e => (self, Raise e)
    | Ok daily =>
        (set_import daily current_total self, Ok (Some (py_round daily 3)))
    end.

(** Calculate daily net grid export (feed-in to grid). *)
Definition _calculate_daily_net_export (self : calculated)
    (cgi_data : snapshot) (today : string) : calculated * result (option Q) :=
  let self :=
    if date_differs (_last_reset_date self) today
    then set_last_reset_date (VStr today) (set_export 0 VNone self)
    else self in
  let current_total := dict_get cgi_data "total_grid_dc_ac" in
  if is_none current_total then (self, Ok (Some (_daily_export self)))
  else
    let added : result Q :=
      if is_none (_last_export_total self) then Ok (_daily_export self)
      else
        match number current_total, number (_last_export_total self) with
        | Ok cur, Ok last =>
            let delta := (cur - last)%Q in
            if Qlt_bool 0 delta then Ok (_daily_export self + delta)%Q
            else Ok (_daily_export self)
        | Raise e, _ | _, Raise e => Raise e
        end in
    match added with
    | Raise e => (self, Raise e)
    | Ok daily =>
        (set_export daily current_total self, Ok (Some (py_round daily 3)))
    end.

(** Calculate battery round-trip efficiency. *)
Definition _calculate_battery_efficiency (cgi_data : snapshot)
  : result (option Q) :=
  let charged := dict_get cgi_data "total_inverter_ac_dc" in
  let discharged := dict_get cgi_data "total_inverter_dc_ac" in
  if is_none charged || is_none discharged || equals_zero charged then Ok None
  else
    match number discharged, number charged with
    | Ok d, Ok c =>
        let efficiency := (d / c * 100)%Q in
        Ok (Some (Qmin efficiency 100))
    | Raise e, _ | _, Raise e => Raise e
    end.

(** Calculate self-sufficiency rate (Autarkiequote). *)
Definition _calculate_self_sufficiency (modbus_data cgi_data : snapshot)
  : result (option Q) :=
  let grid_import := dict_get_or cgi_data "total_grid_ac_dc" (VInt 0) in
  let battery_discharge := dict_get_or cgi_data "total_inverter_dc_ac" (VInt 0) in
  if is_none grid_import || is_none battery_discharge then Ok None
  else
    match number grid_import, number battery_discharge with
    | Ok g, Ok b =>
        let total_consumption := (g + b)%Q in
        if Qeq_bool total_consumption 0 then Ok (Some 100%Q)
        else
          let self_consumed := b in
          let rate := (self_consumed / total_consumption * 100)%Q in
          Ok (Some (Qmin (Qmax rate 0) 100))
    | Raise e, _ | _, Raise e => Raise e
    end.

(** Calculate self-consumption rate (Eigenverbrauchsquote). *)
Definition _calculate_self_consumption (modbus_data cgi_data : snapshot)
  : result (option Q) :=
  let grid_export := dict_get_or cgi_data "total_grid_dc_ac" (VInt 0) in
  let battery_charge := dict_get_or cgi_data "total_inverter_ac_dc" (VInt 0) in
  if is_none grid_export || is_none battery_charge then Ok None
  else
    match number grid_export, number battery_charge with
    | Ok g, Ok b =>
        let total_generation := (g + b)%Q in
        if Qeq_bool total_generation 0 then Ok (Some 100%Q)
        else
          let self_consumed := (total_generation - g)%Q in
          let rate := (self_consumed / total_generation * 100)%Q in
          Ok (Some (Qmin (Qmax rate 0) 100))
    | Raise e, _ | _, Raise e => Raise e
    end.

(** Calculate available energy in battery (Wh). *)
Definition _calculate_available_energy (modbus_data : snapshot)
  : result (option Q) :=
  let soc := dict_get modbus_data "soc" in
  let capacity := dict_get modbus_data "installed_capacity" in
  if is_none soc || is_none capacity then Ok None
  else
    match number soc, number capacity with
    | Ok s, Ok c => Ok (Some (s * c / 100)%Q)
    | Raise e, _ | _, Raise e => Raise e
    end.

(** Calculate estimated time to empty (minutes). *)
Definition _calculate_time_to_empty (modbus_data : snapshot)
  : result (option Q) :=
  match _calculate_available_energy modbus_data with
  | Raise e => Raise e
  | Ok available =>
      let discharge_power := dict_get_or modbus_data "discharge_power" (VInt 0) in
      match available with
      | None => Ok None
      | Some available =>
          if is_none discharge_power then Ok None
          else
            match number discharge_power with
            | Raise e => Raise e
            | Ok p =>
                if Qle_bool p 0 then Ok None
                else Ok (Some (available / p * 60)%Q)
            end
      end
  end.

(** Calculate estimated time to full (minutes). *)
Definition _calculate_time_to_full (modbus_data : snapshot)
  : result (option Q) :=
  let soc := dict_get modbus_data "soc" in
  let capacity := dict_get modbus_data "installed_capacity" in
  let charge_power := dict_get_or modbus_data "charge_power" (VInt 0) in
  if is_none soc || is_none capacity || is_none charge_power then Ok None
  else
    match number charge_power with
    | Raise e => Raise e
    | Ok p =>
        if Qle_bool p 0 then Ok None
        else
          match number soc, number capacity with
          | Ok s, Ok c =>
              let remaining_capacity := (c * (100 - s) / 100)%Q in
              Ok (Some (remaining_capacity / p * 60)%Q)
          | Raise e, _ | _, Raise e => Raise e
          end
    end.

(** Calculate total absolute power flow (W). *)
Definition _calculate_total_power_flow (modbus_data : snapshot)
  : result (option Q) :=
  let or_zero (v : value) := if truthy v then v else VInt 0 in
  match number (or_zero (dict_get_or modbus_data "charge_power" (VInt 0))) with
  | Raise e => Raise e
  | Ok charge =>
      match number (or_zero (dict_get_or modbus_data "discharge_power" (VInt 0))) with
      | Raise e => Raise e
      | Ok discharge => Ok (Some (Qabs charge + Qabs discharge)%Q)
      end
  end.

Section Calculated.
Context `{PyBuiltins}.
Variable entity_description : description.

(** The restore step of [async_added_to_hass]. *)
Definition calculated_restore (self : calculated)
    (last_state : option stored_state) : calculated :=
  if is_daily_key (key entity_description) then
    match last_state with
    | Some st =>
        match py_float (VStr (state st)) with
        | Ok q =>
            let self := set_native_value (Some q) self in
            if bool_decide (attributes st = ∅) then self
            else set_last_reset_date
                   (dict_get (attributes st) "last_reset_date") self
        | Raise _ => self
        end
    | None => self
    end
  else self.

(** Calculate the derived value.  [cgi_data] is [None] when there is no
    CGI coordinator; a coordinator that exists holds a snapshot, since
    setup awaits its first refresh.  The only exceptions the
    calculations raise are the ones caught here. *)
Definition _async_calculate (self : calculated)
    (coordinator_data : option snapshot) (cgi_data : option snapshot)
    (today : string) : calculated * outcome :=
  match coordinator_data with
  | None => (self, NotWritten)
  | Some modbus_data =>
      let cgi_data := match cgi_data with Some d => d | None => ∅ end in
      let key := key entity_description in
      let computed : calculated * result (option Q) :=
        if String.eqb key "dailyNetGridImport" then
          _calculate_daily_net_import self cgi_data today
        else if String.eqb key "dailyNetGridExport" then
          _calculate_daily_net_export self cgi_data today
        else if String.eqb key "batteryEfficiency" then
          (self, _calculate_battery_efficiency cgi_data)
        else if String.eqb key "selfSufficiencyRate" then
          (self, _calculate_self_sufficiency modbus_data cgi_data)
        else if String.eqb key "selfConsumptionRate" then
          (self, _calculate_self_consumption modbus_data cgi_data)
        else if String.eqb key "availableEnergy" then
          (self, _calculate_available_energy modbus_data)
        else if String.eqb key "timeToEmpty" then
          (self, _calculate_time_to_empty modbus_data)
        else if String.eqb key "timeToFull" then
          (self, _calculate_time_to_full modbus_data)
        else if String.eqb key "totalPowerFlow" then
          (self, _calculate_total_power_flow modbus_data)
        else (self, Ok None) in
      let value :=
        match computed.2 with
        | Ok v => v
        | Raise _ => None
        end in
      (set_native_value value computed.1, Written value)
  end.

(** Restore state, then the initial calculation. *)
Definition calculated_async_added_to_hass (self : calculated)
    (last_state : option stored_state)
    (coordinator_data : option snapshot) (cgi_data : option snapshot)
    (today : string) : calculated * outcome :=
  _async_calculate (calculated_restore self last_state)
    coordinator_data cgi_data today.

(** A run of timer callbacks on one calendar day. *)
Definition calculate_all (self : calculated) (today : string)
    (ticks : list (option snapshot * option snapshot)) : calculated :=
  fold_left (fun s tick => (_async_calculate s tick.1 tick.2 today).1)
    ticks self.
End Calculated.

End Sensor.

(* ===================================================================== *)
(** * A reading of the builtins, to run the code on concrete inputs       *)
(* ===================================================================== *)

(** Plain decimal literals: an optional sign, digits, and an optional
    fractional part.  Python's [float] and [int] accept more (exponents,
    blanks, underscores); what they reject of this grammar, this reading
    rejects too. *)
Module Decimal.

Definition digit_of (c : ascii) : option Z :=
  let n := Z.of_nat (nat_of_ascii c) in
  if (48 <=? n) && (n <=? 57) then Some (n - 48) else None.

(** The number a non-empty string of digits denotes, after [acc]. *)
Fixpoint digits (s : string) (acc : Z) : option Z :=
  match s with
  | EmptyString => Some acc
  | String c rest =>
      match digit_of c with
      | Some d => digits rest (10 * acc + d)
      | None => None
      end
  end.

(** The part before the first ['.'] and the part after it, if any. *)
Fixpoint split_dot (s : string) : string * option string :=
  match s with
  | EmptyString => (EmptyString, None)
  | String c rest =>
      if Ascii.eqb c "."%char then (EmptyString, Some rest)
      else let (a, b) := split_dot rest in (String c a, b)
  end.

Definition unsigned_float (s : string) : option Q :=
  match split_dot s with
  | (whole, None) =>
      if String.eqb whole "" then None
      else option_map inject_Z (digits whole 0)
  | (whole, Some frac) =>
      if String.eqb whole "" && String.eqb frac "" then None
      else
        match digits whole 0, digits frac 0 with
        | Some w, Some f =>
            let scale := 10 ^ Z.of_nat (String.length frac) in
            Some (inject_Z (w * scale + f) / inject_Z scale)%Q
        | _, _ => None
        end
  end.

Definition float_of_string (s : string) : option Q :=
  match s with
  | String "-"%char rest => option_map Qopp (unsigned_float rest)
  | String "+"%char rest => unsigned_float rest
  | _ => unsigned_float s
  end.

Definition unsigned_int (s : string) : option Z :=
  if String.eqb s "" then None else digits s 0.

Definition int_of_string (s : string) : option Z :=
  match s with
  | String "-"%char rest => option_map Z.opp (unsigned_int rest)
  | String "+"%char rest => unsigned_int rest
  | _ => unsigned_int s
  end.

Definition str (v : value) : string :=
  match v with
  | VNone => "None"
  | VInt z => str_int z
  | VStr s => s
  | _ => "<object>"
  end.

Definition builtins : PyBuiltins :=
  {| py_str := str;
     py_float_of_string := float_of_string;
     py_int_of_string := int_of_string |}.

End Decimal.

(** The catalog of [const.py]: the rows of the four tables, in their
    order, each with the two fields of the description the sensor code
    reads, [key] and [source_key]. *)
Module Catalog.

Definition row (key source_key : string) : Sensor.description :=
  {| Sensor.key := key; Sensor.source_key := Some source_key |}.

Definition SENSORS_MODBUS : list Sensor.description :=
  [
    row "stateOfCharge" "soc";
    row "state" "state";
    row "stateText" "state_text";
    row "errorCode" "error_code";
    row "errorText" "error_code";
    row "stateTextDerived" "state";
    row "gridPower" "grid_power";
    row "gridPowerToGrid" "to_grid_power";
    row "gridPowerFromGrid" "from_grid_power";
    row "powerActive" "active_power";
    row "powerApparent" "apparent_power";
    row "powerCharge" "charge_power";
    row "powerDischarge" "discharge_power";
    row "powerChargeTotal" "total_charged_energy";
    row "software_version_ems" "software_version_ems";
    row "software_version_ens" "software_version_ens";
    row "software_version_inverter" "software_version_inverter";
    row "number_modules" "number_modules";
    row "installed_capacity" "installed_capacity";
    row "serial" "serial";
    row "table_version" "table_version"
  ].

Definition SENSORS_CGI : list Sensor.description :=
  [
    row "cycleCounter" "total_charge_cycles";
    row "gridPowerToTotal" "total_grid_dc_ac";
    row "gridPowerFromTotal" "total_grid_ac_dc";
    row "inverterDischarged" "total_inverter_dc_ac";
    row "inverterCharged" "total_inverter_ac_dc";
    row "maintenanceFilterDueIn" "hours_until_filter_maintenance";
    row "fan" "status_fan";
    row "main" "status_main";
    row "nominalPower" "nominal_power";
    row "fanSpeed" "fan_speed";
    row "frequencyGrid" "frequency_grid";
    row "onlineStatus" "online_status";
    row "voltageL1" "u_verbund_l1";
    row "voltageL2" "u_verbund_l2";
    row "voltageL3" "u_verbund_l3";
    row "currentL1" "i_verbund_l1";
    row "currentL2" "i_verbund_l2";
    row "currentL3" "i_verbund_l3";
    row "tempL1" "temp_l1";
    row "tempL2" "temp_l2";
    row "tempL3" "temp_l3";
    row "tempBoard" "temp_board";
    row "voltageIslandL1" "u_insel_l1";
    row "voltageIslandL2" "u_insel_l2";
    row "voltageIslandL3" "u_insel_l3";
    row "currentIslandL1" "i_insel_l1";
    row "currentIslandL2" "i_insel_l2";
    row "currentIslandL3" "i_insel_l3";
    row "deviceDescription" "device_description";
    row "pEmsMax" "p_ems_max";
    row "pEmsMaxDisc" "p_ems_maxdisc"
  ].

Definition SENSORS_RIEMANN : list Sensor.description :=
  [
    row "energyToGrid" "to_grid_power";
    row "energyFromGrid" "from_grid_power";
    row "energyCharged" "charge_power";
    row "energyDischarged" "discharge_power"
  ].

Definition SENSORS_CALCULATED : list Sensor.description :=
  [
    row "dailyNetGridImport" "daily_net_grid_import";
    row "dailyNetGridExport" "daily_net_grid_export";
    row "batteryEfficiency" "battery_efficiency";
    row "selfSufficiencyRate" "self_sufficiency_rate";
    row "selfConsumptionRate" "self_consumption_rate";
    row "availableEnergy" "available_energy";
    row "timeToEmpty" "time_to_empty";
    row "timeToFull" "time_to_full";
    row "totalPowerFlow" "total_power_flow"
  ].

End Catalog.

(** The sensor platform: [async_setup_entry] of [sensor.py]. *)
Module Platform.

(** An entity as the platform constructs it: the class, for a
    [VartaStorageEntity] the coordinator it listens to, and the
    description. *)
Inductive entity : Type :=
| StorageEntity (on_cgi : bool) (d : Sensor.description)
| RiemannSensor (d : Sensor.description)
| CalculatedSensor (d : Sensor.description).

Definition entity_description (e : entity) : Sensor.description :=
  match e with
  | StorageEntity _ d | RiemannSensor d | CalculatedSensor d => d
  end.

(** [_attr_unique_id], the same expression in the three classes;
    [config_unique_id] is the text of [config_entry.unique_id]. *)
Definition unique_id (config_unique_id : string) (e : entity) : string :=
  config_unique_id +:+ "-" +:+ Sensor.key (entity_description e).

(** The entities handed to [async_add_entities].  [cgi] is the truth of
    [entry.data.get("cgi")], [cgi_coordinator] that of
    [coordinators.get("cgi")]. *)
Definition async_setup_entry (cgi cgi_coordinator : bool) : list entity :=
  map (StorageEntity false) Catalog.SENSORS_MODBUS
  ++ (if cgi && cgi_coordinator
      then map (StorageEntity true) Catalog.SENSORS_CGI else [])
  ++ map RiemannSensor Catalog.SENSORS_RIEMANN
  ++ map CalculatedSensor Catalog.SENSORS_CALCULATED.

End Platform.

(** Snapshots in which every field a calculated sensor reads is a number. *)
Definition busy_modbus : snapshot :=
  {[ "soc" := VInt 50; "installed_capacity" := VInt 6500;
     "charge_power" := VInt 400; "discharge_power" := VInt 300 ]}.

Definition busy_cgi : snapshot :=
  {[ "total_grid_ac_dc" := VInt 10; "total_grid_dc_ac" := VInt 5;
     "total_inverter_ac_dc" := VInt 10; "total_inverter_dc_ac" := VInt 8 ]}.


(** Ticks on one snapshot at the times that follow [t0] by the gaps of
    [gaps], one after the other. *)
Fixpoint ticks_after (data : snapshot) (t0 : Z) (gaps : list Z)
  : list (option snapshot * Z) :=
  match gaps with
  | [] => []
  | g :: rest => (Some data, t0 + g) :: ticks_after data (t0 + g) rest
  end.

(** The sum of a list of integers. *)
Definition sum_of (l : list Z) : Z := fold_right Z.add 0 l.

(** An integration state with a last sample. *)
Definition sampled (total power : Q) (time : Z) : Sensor.riemann :=
  {| Sensor._total_energy := total;
     Sensor._last_power := Some power;
     Sensor._last_update := Some time;
     Sensor.riemann_attr_native_value := None |}.

(** One minute, half an hour, and 29 minutes: an hour in all. *)
Definition uneven_gaps : list Z := [60000000; 1800000000; 1740000000].

(** A daily sensor in the middle of 2024-05-01. *)
Definition mid_day : Sensor.calculated :=
  {| Sensor._daily_import := 5;
     Sensor._daily_export := 2;
     Sensor._last_import_total := VInt 110;
     Sensor._last_export_total := VInt 40;
     Sensor._last_reset_date := VStr "2024-05-01";
     Sensor._attr_native_value := Some 5%Q |}.

(** The same after a reading that was a text. *)
Definition after_bad_reading : Sensor.calculated :=
  {| Sensor._daily_import := 5;
     Sensor._daily_export := 2;
     Sensor._last_import_total := VStr "n/a";
     Sensor._last_export_total := VInt 40;
     Sensor._last_reset_date := VStr "2024-05-01";
     Sensor._attr_native_value := Some 5%Q |}.

(* ===================================================================== *)
(** * Definitions used to state the properties                            *)
(* ===================================================================== *)

(** Structural induction on values, through the lists they contain. *)
Section ValueInduction.
Variable P : value -> Prop.
Hypothesis HNone : P VNone.
Hypothesis HInt : forall z, P (VInt z).
Hypothesis HFloat : forall q, P (VFloat q).
Hypothesis HStr : forall s, P (VStr s).
Hypothesis HList : forall xs, Forall P xs -> P (VList xs).
Hypothesis HDict : forall items, Forall (fun e => P e.2) items -> P (VDict items).
Hypothesis HData : forall fields, Forall (fun e => P e.2) fields -> P (VData fields).

Fixpoint value_ind (v : value) : P v :=
  match v with
  | VNone => HNone
  | VInt z => HInt z
  | VFloat q => HFloat q
  | VStr s => HStr s
  | VList xs =>
      HList xs
        ((fix all (l : list value) : Forall P l :=
            match l with
            | [] => List.Forall_nil _
            | x :: r => @List.Forall_cons _ P x r (value_ind x) (all r)
            end) xs)
  | VDict items =>
      HDict items
        ((fix all (l : list (string * value)) : Forall (fun e => P e.2) l :=
            match l with
            | [] => List.Forall_nil _
            | e :: r =>
                @List.Forall_cons _ (fun e => P e.2) e r (value_ind e.2) (all r)
            end) items)
  | VData fields =>
      HData fields
        ((fix all (l : list (string * value)) : Forall (fun e => P e.2) l :=
            match l with
            | [] => List.Forall_nil _
            | e :: r =>
                @List.Forall_cons _ (fun e => P e.2) e r (value_ind e.2) (all r)
            end) fields)
  end.
End ValueInduction.

(** The leaves of a record or of a key-value container, in the order the
    flattener visits them: an entry whose value is a record stands for the
    leaves of that record, any other entry is a leaf under its own name. *)
Fixpoint leaves (obj : value) : list (string * value) :=
  match obj with
  | VData entries | VDict entries =>
      (fix over (l : list (string * value)) : list (string * value) :=
         match l with
         | [] => []
         | (name, v) :: rest =>
             (match v with
              | VData _ => leaves v
              | _ => [(name, v)]
              end ++ over rest)%list
         end) entries
  | _ => []
  end.

(** The leaves of one entry. *)
Definition entry_leaves (e : string * value) : list (string * value) :=
  match e.2 with
  | VData _ => leaves e.2
  | _ => [e]
  end.

(** The leaves that hold a value: those that are not [None]. *)
Definition set_leaves (l : list (string * value)) : list (string * value) :=
  filter (fun e => is_none e.2 = false) l.

(** The mapping that results from writing the entries of [l] one after
    the other into an empty dict: the last write to a key wins. *)
Definition written_in_order (l : list (string * value)) : snapshot :=
  list_to_map (reverse l).

(** A record or a key-value container with the given entries. *)
Definition container (as_dict : bool) (entries : list (string * value)) : value :=
  if as_dict then VDict entries else VData entries.

(** What a record or a container flattens to. *)
Definition flattens_to_leaves `{PyBuiltins} (v : value) : Prop :=
  match v with
  | VData _ | VDict _ =>
      Init.flatten_dataclass v "" = written_in_order (set_leaves (leaves v))
  | _ => True
  end.

(** A record with a nested record, a field that is [None] and names that
    occur twice. *)
Definition nested_reply : list (string * value) :=
  [ ("soc", VInt 40);
    ("serial", VNone);
    ("ems", VData [ ("soc", VInt 55);
                    ("serial", VStr "V123");
                    ("fan", VNone) ]);
    ("grid_power", VInt (-120));
    ("fan", VInt 3);
    ("serial", VNone) ].

(** The world after the warning of the second failed attempt. *)
Definition warned (text : string) (e : exn) (w : world) : world :=
  {| oracle := oracle w;
     trace := trace w;
     logged := (WARNING, text +:+ exn_msg e) :: logged w |}.

(** The computation [m] constructs [n] client objects, however it ends. *)
Definition connects {A} (n : nat) (m : io A) : Prop :=
  forall w, connections (m w).2 = (connections w + n)%nat.

(** A device that raises on the requests numbered by [fails] and answers
    the others with [reply]; nothing requested and nothing logged yet. *)
Definition scripted_device (fails : nat -> bool) (reply : request -> value)
  : world :=
  {| oracle := fun n r =>
                 if fails n then Raise (Exn ConnectionError "timed out")
                 else Ok (reply r);
     trace := [];
     logged := [] |}.

Definition sample_entry : Init.entry_data :=
  {| Init.host := "192.168.1.20";
     Init.host_cgi := "";
     Init.port := 502;
     Init.username := "user";
     Init.password := "secret";
     Init.cgi := true;
     Init.scan_interval_modbus := 3;
     Init.scan_interval_cgi := 10 |}.

Definition sample_reply (r : request) : value :=
  match r with
  | GetAllDataModbus =>
      VData [ ("soc", VInt 40); ("charge_power", VInt 100);
              ("serial", VNone) ]
  | GetEmsCgi =>
      VData [ ("wr_data", VData [ ("fan", VInt 3) ]);
              ("emeter_data", VNone) ]
  | GetEnergyCgi =>
      VData [ ("total_grid_ac_dc", VInt 10);
              ("total_charge_cycles", VList [VInt 7]) ]
  | _ => VData []
  end.

Definition stale_coordinator : Init.coordinator :=
  {| Init.coordinator_data := Some {[ "soc" := VInt 39 ]};
     Init.last_update_success := true |}.

(** Every integration state the sensor reaches has a last power that is
    an absolute value. *)
Definition riemann_ok (self : Sensor.riemann) : Prop :=
  match Sensor._last_power self with
  | Some p => (0 <= p)%Q
  | None => True
  end.

(** Rows of [SENSORS_RIEMANN] and [SENSORS_CALCULATED]. *)
Definition energy_charged : Sensor.description :=
  {| Sensor.key := "energyCharged"; Sensor.source_key := Some "charge_power" |}.

Definition daily_net_grid_import : Sensor.description :=
  {| Sensor.key := "dailyNetGridImport";
     Sensor.source_key := Some "daily_net_grid_import" |}.

Definition daily_net_grid_export : Sensor.description :=
  {| Sensor.key := "dailyNetGridExport";
     Sensor.source_key := Some "daily_net_grid_export" |}.

Definition battery_efficiency : Sensor.description :=
  {| Sensor.key := "batteryEfficiency";
     Sensor.source_key := Some "battery_efficiency" |}.

Definition self_sufficiency_rate : Sensor.description :=
  {| Sensor.key := "selfSufficiencyRate";
     Sensor.source_key := Some "self_sufficiency_rate" |}.

(** A snapshot in which the battery charges with 100 W. *)
Definition hundred_watts : snapshot := {[ "charge_power" := VInt 100 ]}.

(** One hour, in microseconds. *)
Definition one_hour : Z := 3600000000.

(** A state of the integration sensor in mid run: 1 kWh so far, the last
    sample 100 W at the epoch. *)
Definition mid_run : Sensor.riemann :=
  {| Sensor._total_energy := 1;
     Sensor._last_power := Some 100%Q;
     Sensor._last_update := Some 0;
     Sensor.riemann_attr_native_value := Some 1%Q |}.

(** A state no run of the sensor produces: a negative last power. *)
Definition negative_last_power : Sensor.riemann :=
  {| Sensor._total_energy := 1;
     Sensor._last_power := Some (-500)%Q;
     Sensor._last_update := Some 0;
     Sensor.riemann_attr_native_value := Some 1%Q |}.

(** The two ticks of the energy integrator, [gap] microseconds apart. *)
Definition two_samples (t0 gap : Z) : list (option snapshot * Z) :=
  [ (Some hundred_watts, t0); (Some hundred_watts, t0 + gap) ].

(** Stored states: the text of the state and no attributes. *)
Definition stored (text : string) : Sensor.stored_state :=
  {| Sensor.state := text; Sensor.attributes := ∅ |}.

(** A CGI snapshot that holds one cumulative counter. *)
Definition counter_snapshot (field : string) (z : Z) : snapshot :=
  {[ field := VInt z ]}.

(** Ticks of a calculated sensor: the Modbus coordinator holds a snapshot
    (its content plays no part in the daily sensors), the CGI coordinator
    holds the counter. *)
Definition counter_ticks (field : string) (counters : list Z)
  : list (option snapshot * option snapshot) :=
  map (fun z => (Some ∅, Some (counter_snapshot field z))) counters.

(** The sum of the positive steps of a sequence of counter readings that
    follows the reading [prev]. *)
Fixpoint positive_deltas (prev : Z) (counters : list Z) : Z :=
  match counters with
  | [] => 0
  | z :: rest => Z.max 0 (z - prev) + positive_deltas z rest
  end.

(** What the host has stored for a daily sensor: the value and the reset
    date among the attributes. *)
Definition stored_daily (text date : string) : Sensor.stored_state :=
  {| Sensor.state := text;
     Sensor.attributes := {[ "last_reset_date" := VStr date ]} |}.

(** Division by a literal as multiplication by its inverse, which is what
    the linear arithmetic of [lra] understands. *)
Ltac literal_inverses :=
  unfold Qdiv in *;
  repeat match goal with
    | |- context [Qinv (Qmake ?n ?d)] =>
        let r := eval compute in (Qinv (Qmake n d)) in
        change (Qinv (Qmake n d)) with r
    | Hyp : context [Qinv (Qmake ?n ?d)] |- _ =>
        let r := eval compute in (Qinv (Qmake n d)) in
        change (Qinv (Qmake n d)) with r in Hyp
    end.

Ltac qlra := literal_inverses; lra.

(** A value of a flat mapping: neither [None] nor a record. *)
Definition flat_value (v : value) : Prop :=
  is_none v = false /\ forall fields, v <> VData fields.

(** The number of warnings in the log. *)
Definition is_warning (l : level) : bool :=
  match l with WARNING => true | _ => false end.

Definition warnings (w : world) : nat :=
  length (filter (fun record => is_warning record.1 = true) (logged w)).

(** The computation [m] adds [n] warnings to the log, however it ends. *)
Definition warns {A} (n : nat) (m : io A) : Prop :=
  forall w, warnings (m w).2 = (warnings w + n)%nat.

(** The computation [m] makes at most [n] requests, each of them one [P]
    allows, and leaves the device as it is. *)
Definition requests {A} (P : request -> Prop) (n : nat) (m : io A) : Prop :=
  forall w, exists new : list request,
    trace (m w).2 = new ++ trace w /\ Forall P new /\ (length new <= n)%nat /\
    oracle (m w).2 = oracle w.

(** The requests the Modbus fetch can make with the entry [data]. *)
Definition modbus_request (data : Init.entry_data) (r : request) : Prop :=
  r = Connect (Init.host data) (Init.port data) false
        (Init.username data) (Init.password data)
  \/ r = GetAllDataModbus.

(** The host the CGI fetch connects to. *)
Definition cgi_host (data : Init.entry_data) : string :=
  if String.eqb (Init.host_cgi data) "" then Init.host data
  else Init.host_cgi data.

(** The requests the CGI fetch can make with the entry [data]. *)
Definition cgi_request (data : Init.entry_data) (r : request) : Prop :=
  r = Connect (cgi_host data) (Init.port data) true
        (Init.username data) (Init.password data)
  \/ r = GetEmsCgi \/ r = GetEnergyCgi \/ r = GetInfoCgi \/ r = GetServiceCgi.

(** What [merge_nested] adds for the attribute [name] of [ems_data]:
    nothing if the attribute is missing or [None]. *)
Definition nested_part `{PyBuiltins} (ems_data : value) (name : string)
  : snapshot :=
  match getattr ems_data name with
  | Ok VNone | Raise _ => ∅
  | Ok nested => Init.flatten_dataclass nested ""
  end.

(** The container the CGI fetch builds around the four replies. *)
Definition cgi_container (ems_data energy_data info_data service_data : value)
  : value :=
  VData [ ("ems_data", ems_data); ("energy_data", energy_data);
          ("info_data", info_data); ("service_data", service_data) ].

(** An attribute that is a record, [None] or missing. *)
Definition record_or_none (fields : list (string * value)) (name : string)
  : Prop :=
  match field_get fields name with
  | Some (VData _) | Some VNone | None => True
  | Some _ => False
  end.

Example decimal_float_5 : Decimal.float_of_string "5.0" = Some (50 # 10).
Proof. reflexivity. Qed.

Example decimal_float_words : Decimal.float_of_string "unavailable" = None.
Proof. reflexivity. Qed.

(* ===================================================================== *)
(** * Properties of const.py                                              *)
(* ===================================================================== *)

Section ConstProps.
Import Const.

Lemma state_table_domain (c : Z) :
  is_Some (VARTA_STATE_MAP !! c) <-> 0 <= c <= 11.
Proof.
  unfold VARTA_STATE_MAP. split.
  - intros [text Hc]. apply elem_of_list_to_map_2 in Hc.
    repeat (apply elem_of_cons in Hc as [Hc | Hc];
            [injection Hc as -> _; lia |]).
    by apply elem_of_nil in Hc.
  - intros Hc.
    assert (c = 0 \/ c = 1 \/ c = 2 \/ c = 3 \/ c = 4 \/ c = 5 \/ c = 6
            \/ c = 7 \/ c = 8 \/ c = 9 \/ c = 10 \/ c = 11) as Hcases by lia.
    repeat (destruct Hcases as [-> | Hcases]; [by eexists |]).
    subst c. by eexists.
Qed.

Lemma error_table_domain (c : Z) :
  is_Some (VARTA_ERROR_MAP !! c) <-> 0 <= c <= 20 \/ c = 255.
Proof.
  unfold VARTA_ERROR_MAP. split.
  - intros [text Hc]. apply elem_of_list_to_map_2 in Hc.
    repeat (apply elem_of_cons in Hc as [Hc | Hc];
            [injection Hc as -> _; lia |]).
    by apply elem_of_nil in Hc.
  - intros Hc.
    assert (c = 0 \/ c = 1 \/ c = 2 \/ c = 3 \/ c = 4 \/ c = 5 \/ c = 6
            \/ c = 7 \/ c = 8 \/ c = 9 \/ c = 10 \/ c = 11 \/ c = 12
            \/ c = 13 \/ c = 14 \/ c = 15 \/ c = 16 \/ c = 17 \/ c = 18
            \/ c = 19 \/ c = 20 \/ c = 255) as Hcases by lia.
    repeat (destruct Hcases as [-> | Hcases]; [by eexists |]).
    subst c. by eexists.
Qed.

Lemma error_table_zero : VARTA_ERROR_MAP !! 0 = Some "No Error (Kein Fehler)".
Proof. reflexivity. Qed.

(** C10.  The two text lookups are total, with an explicit fallback.
    [None] gives ["Unknown"]; a code of the table (0 to 11 for states,
    0 to 20 and 255 for errors) gives the text of the table; every other
    integer gives the fallback text around the decimal numeral of the
    code. *)
Theorem text_lookups_total (code : option Z) :
  match code with
  | None =>
      get_state_text code = "Unknown" /\ get_error_text code = "Unknown"
  | Some c =>
      match VARTA_STATE_MAP !! c with
      | Some text => 0 <= c <= 11 /\ get_state_text code = text
      | None =>
          ~ 0 <= c <= 11 /\
          get_state_text code = "Unknown State (" +:+ str_int c +:+ ")"
      end /\
      match VARTA_ERROR_MAP !! c with
      | Some text => (0 <= c <= 20 \/ c = 255) /\ get_error_text code = text
      | None =>
          ~ (0 <= c <= 20 \/ c = 255) /\
          get_error_text code = "Unknown Error (" +:+ str_int c +:+ ")"
      end
  end.
Proof.
  destruct code as [c |]; [| done].
  split.
  - pose proof (state_table_domain c) as Hdom.
    unfold get_state_text, table_get.
    destruct (VARTA_STATE_MAP !! c) as [text |] eqn:Hc.
    + split; [apply Hdom; by eexists | done].
    + split; [| done]. intros Hin. apply Hdom in Hin as [? ?]. done.
  - pose proof (error_table_domain c) as Hdom.
    unfold get_error_text, table_get.
    destruct (Z.eqb_spec c 0) as [-> | Hnz].
    + rewrite error_table_zero. split; [lia | done].
    + destruct (VARTA_ERROR_MAP !! c) as [text |] eqn:Hc.
      * split; [apply Hdom; by eexists | done].
      * split; [| done]. intros Hin. apply Hdom in Hin as [? ?]. done.
Qed.

Example state_text_known : get_state_text (Some 3) = "Discharge (Entladen)".
Proof. reflexivity. Qed.

Example state_text_unmapped : get_state_text (Some 42) = "Unknown State (42)".
Proof. reflexivity. Qed.

Example error_text_unmapped :
  get_error_text (Some (-7)) = "Unknown Error (-7)".
Proof. reflexivity. Qed.

Example error_text_last : get_error_text (Some 255)
                          = "Unknown Error (Unbekannter Fehler)".
Proof. reflexivity. Qed.
End ConstProps.

(* ===================================================================== *)
(** * Properties of flatten_dataclass                                     *)
(* ===================================================================== *)

Section FlattenProps.
Context `{PyBuiltins}.
Import Init.

Lemma is_none_false (v : value) : is_none v = false <-> v <> VNone.
Proof. destruct v; simpl; split; congruence. Qed.

Lemma flatten_container (as_dict : bool) (entries : list (string * value))
    (prefix : string) :
  flatten_dataclass (container as_dict entries) prefix
  = fold_left flatten_step entries ∅.
Proof.
  destruct as_dict; simpl; generalize (∅ : snapshot);
    induction entries as [| [name v] rest IH]; intros acc; simpl; try done;
    rewrite IH; f_equal; by destruct v.
Qed.

Lemma leaves_container (as_dict : bool) (entries : list (string * value)) :
  leaves (container as_dict entries) = entries ≫= entry_leaves.
Proof.
  destruct as_dict; simpl;
    induction entries as [| [name v] rest IH]; simpl; try done;
    rewrite IH; by destruct v.
Qed.

Lemma written_in_order_app (l1 l2 : list (string * value)) :
  written_in_order (l1 ++ l2) = written_in_order l2 ∪ written_in_order l1.
Proof. unfold written_in_order. by rewrite reverse_app, list_to_map_app. Qed.

Lemma set_leaves_app (l1 l2 : list (string * value)) :
  set_leaves (l1 ++ l2) = set_leaves l1 ++ set_leaves l2.
Proof. apply filter_app. Qed.

(** The prefix plays no part in the result. *)
Lemma flatten_prefix_irrelevant (obj : value) (prefix : string) :
  flatten_dataclass obj prefix = flatten_dataclass obj "".
Proof. by destruct obj. Qed.

Lemma flatten_step_leaves (acc : snapshot) (e : string * value) :
  flattens_to_leaves e.2 ->
  flatten_step acc e = written_in_order (set_leaves (entry_leaves e)) ∪ acc.
Proof.
  destruct e as [name v]. unfold flatten_step, entry_leaves, flattens_to_leaves.
  simpl. intros Hv.
  destruct v; try (by rewrite Hv);
    unfold set_leaves, written_in_order; simpl;
    rewrite ?(left_id_L ∅ (∪)); try done;
    by rewrite <- insert_union_l, (left_id_L ∅ (∪)).
Qed.

Lemma fold_flatten_step_leaves (entries : list (string * value)) :
  Forall (fun e => flattens_to_leaves e.2) entries ->
  forall acc : snapshot,
    fold_left flatten_step entries acc
    = written_in_order (set_leaves (entries ≫= entry_leaves)) ∪ acc.
Proof.
  induction 1 as [| e rest He _ IH]; intros acc; simpl.
  - unfold set_leaves, written_in_order. simpl. by rewrite (left_id_L ∅ (∪)).
  - rewrite IH, (flatten_step_leaves _ _ He).
    rewrite set_leaves_app, written_in_order_app.
    by rewrite (assoc_L (∪)).
Qed.

Lemma flatten_leaves (v : value) : flattens_to_leaves v.
Proof.
  induction v as [| | | | | items IH | fields IH] using value_ind; try exact I;
    unfold flattens_to_leaves.
  - rewrite (flatten_container true), (leaves_container true).
    by rewrite (fold_flatten_step_leaves _ IH), (right_id_L ∅ (∪)).
  - rewrite (flatten_container false), (leaves_container false).
    by rewrite (fold_flatten_step_leaves _ IH), (right_id_L ∅ (∪)).
Qed.

Lemma flatten_written (as_dict : bool) (entries : list (string * value))
    (prefix : string) :
  flatten_dataclass (container as_dict entries) prefix
  = written_in_order (set_leaves (leaves (container as_dict entries))).
Proof.
  rewrite flatten_prefix_irrelevant.
  pose proof (flatten_leaves (container as_dict entries)) as Hv.
  by destruct as_dict.
Qed.

Lemma written_lookup_elem (l : list (string * value)) (k : string) (v : value) :
  written_in_order l !! k = Some v -> (k, v) ∈ l.
Proof.
  unfold written_in_order. intros Hk.
  apply elem_of_list_to_map_2 in Hk. by rewrite elem_of_reverse in Hk.
Qed.

Lemma written_lookup_none (l : list (string * value)) (k : string) :
  (forall v, (k, v) ∉ l) -> written_in_order l !! k = None.
Proof.
  unfold written_in_order. intros Hk.
  apply not_elem_of_list_to_map_1. intros Hin.
  apply list_elem_of_fmap in Hin as [[k' v] [-> Hin]].
  rewrite elem_of_reverse in Hin. simpl. exact (Hk v Hin).
Qed.

Lemma written_last_wins (l1 l2 : list (string * value)) (k : string) (v : value) :
  (forall v', (k, v') ∉ l2) ->
  written_in_order (l1 ++ (k, v) :: l2) !! k = Some v.
Proof.
  intros Hk.
  change ((k, v) :: l2) with ([(k, v)] ++ l2).
  rewrite written_in_order_app, (written_in_order_app [(k, v)] l2).
  rewrite <- (assoc_L (∪)), lookup_union_r by by apply written_lookup_none.
  apply lookup_union_Some_l. unfold written_in_order. simpl.
  apply lookup_insert_eq.
Qed.

Lemma elem_of_set_leaves (l : list (string * value)) (k : string) (v : value) :
  (k, v) ∈ set_leaves l <-> (k, v) ∈ l /\ v <> VNone.
Proof.
  unfold set_leaves. rewrite list_elem_of_filter. simpl.
  rewrite is_none_false. tauto.
Qed.

(** No entry of the result is [None], whatever the input. *)
Lemma flatten_no_none (obj : value) (prefix : string) (k : string) (v : value) :
  flatten_dataclass obj prefix !! k = Some v -> v <> VNone.
Proof.
  destruct obj as [| z | q | s | xs | items | fields];
    [ simpl; by rewrite lookup_empty
    | simpl; intros Hk; apply lookup_singleton_Some in Hk as [_ <-]; done ..
    | | ].
  - change (VDict items) with (container true items). rewrite flatten_written.
    intros Hk. apply written_lookup_elem in Hk.
    by apply elem_of_set_leaves in Hk as [_ ?].
  - change (VData fields) with (container false fields). rewrite flatten_written.
    intros Hk. apply written_lookup_elem in Hk.
    by apply elem_of_set_leaves in Hk as [_ ?].
Qed.

(** C7.  Flattening a nested record, or a key-value container of records,
    gives the mapping that results from writing its leaves that are not
    [None], in traversal order, under their own field names: no entry of
    the result is [None] and each entry is a leaf; every leaf that holds a
    value has its name in the result; the last leaf written under a name
    is the one the result holds; each name is a key of the result once;
    and the prefix is not part of any key. *)
Theorem flatten_merges_leaves (as_dict : bool)
    (entries : list (string * value)) (prefix : string) :
  let obj := container as_dict entries in
  let flat := flatten_dataclass obj prefix in
  flat = written_in_order (set_leaves (leaves obj)) /\
  (forall k v, flat !! k = Some v -> v <> VNone /\ (k, v) ∈ leaves obj) /\
  (forall k v, (k, v) ∈ leaves obj -> v <> VNone -> is_Some (flat !! k)) /\
  (forall l1 k v l2,
      leaves obj = l1 ++ (k, v) :: l2 -> v <> VNone ->
      (forall v', (k, v') ∈ l2 -> v' = VNone) ->
      flat !! k = Some v) /\
  NoDup (map_to_list flat).*1 /\
  flat = flatten_dataclass obj "".
Proof.
  intros obj flat. subst obj flat.
  split; [apply flatten_written |].
  split; [| split; [| split; [| split]]].
  - intros k v Hk. split; [by eapply flatten_no_none |].
    rewrite flatten_written in Hk. apply written_lookup_elem in Hk.
    by apply elem_of_set_leaves in Hk as [? _].
  - intros k v Hin Hv. rewrite flatten_written.
    apply not_eq_None_Some. intros Hnone.
    apply not_elem_of_list_to_map_2 in Hnone. apply Hnone.
    apply list_elem_of_fmap. exists (k, v). split; [done |].
    rewrite elem_of_reverse. by apply elem_of_set_leaves.
  - intros l1 k v l2 Hl Hv Hlast. rewrite flatten_written, Hl.
    rewrite set_leaves_app. unfold set_leaves at 2.
    rewrite filter_cons_True by by apply is_none_false.
    apply written_last_wins. intros v' Hin.
    apply elem_of_set_leaves in Hin as [Hin Hv']. by apply Hv', Hlast.
  - apply NoDup_fst_map_to_list.
  - apply flatten_prefix_irrelevant.
Qed.
End FlattenProps.

Lemma flatten_merges_leaves_witness :
  Init.flatten_dataclass (H := Decimal.builtins) (VData nested_reply) "p" !! "soc"
  = Some (VInt 55) /\
  Init.flatten_dataclass (H := Decimal.builtins) (VData nested_reply) "p" !! "serial"
  = Some (VStr "V123").
Proof.
  pose proof (flatten_merges_leaves (H := Decimal.builtins) false nested_reply "p")
    as (_ & _ & _ & Hlast & _).
  split.
  - apply (Hlast [("soc", VInt 40); ("serial", VNone)] "soc" (VInt 55)
             [("serial", VStr "V123"); ("fan", VNone); ("grid_power", VInt (-120));
              ("fan", VInt 3); ("serial", VNone)]); [reflexivity | discriminate |].
    intros v' Hin. repeat (apply elem_of_cons in Hin as [Hin | Hin];
                           [discriminate Hin || (by inversion Hin) |]).
    by apply elem_of_nil in Hin.
  - apply (Hlast [("soc", VInt 40); ("serial", VNone); ("soc", VInt 55)]
             "serial" (VStr "V123")
             [("fan", VNone); ("grid_power", VInt (-120));
              ("fan", VInt 3); ("serial", VNone)]); [reflexivity | discriminate |].
    intros v' Hin. repeat (apply elem_of_cons in Hin as [Hin | Hin];
                           [discriminate Hin || (by inversion Hin) |]).
    by apply elem_of_nil in Hin.
Defined.

Example flatten_nested_reply :
  Init.flatten_dataclass (H := Decimal.builtins) (VData nested_reply) ""
  = {[ "soc" := VInt 55; "serial" := VStr "V123";
       "grid_power" := VInt (-120); "fan" := VInt 3 ]}.
Proof. by apply map_eq; intros k; vm_compute. Qed.

(* ===================================================================== *)
(** * Properties of the fetch functions                                   *)
(* ===================================================================== *)

Section FetchProps.
Context `{PyBuiltins}.
Import Init.
Variable data : entry_data.

Lemma connects_call (r : request) :
  connects (if is_connect r then 1 else 0)%nat (call r).
Proof.
  intros w. unfold connections, call. simpl. destruct r; simpl;
    rewrite ?filter_cons_True, ?filter_cons_False by (simpl; congruence);
    simpl; lia.
Qed.

Lemma connects_log (l : level) (msg : string) : connects 0 (log l msg).
Proof. intros w. unfold connections. simpl. lia. Qed.

Lemma connects_ret {A} (a : A) : connects 0 (ret a).
Proof. intros w. simpl. lia. Qed.

Lemma connects_lift {A} (r : result A) : connects 0 (lift r).
Proof. intros w. simpl. lia. Qed.

(** What follows a step runs only if the step returns; what it adds to
    the count must therefore be nothing. *)
Lemma connects_bind {A B} (n : nat) (m : io A) (k : A -> io B) :
  connects n m -> (forall a, connects 0 (k a)) -> connects n (bind m k).
Proof.
  intros Hm Hk w. unfold bind. specialize (Hm w).
  destruct (m w) as [[a | e] w1]; simpl in *; [| done].
  rewrite (Hk a w1). lia.
Qed.

Ltac connects_rest :=
  repeat first
    [ apply connects_ret | apply connects_lift | apply connects_log
    | apply (connects_call GetAllDataModbus)
    | apply (connects_bind 0 (call GetEmsCgi)); [apply (connects_call GetEmsCgi) | intros ?]
    | apply (connects_bind 0 (call GetEnergyCgi)); [apply (connects_call GetEnergyCgi) | intros ?]
    | apply (connects_bind 0 (call GetInfoCgi)); [apply (connects_call GetInfoCgi) | intros ?]
    | apply (connects_bind 0 (call GetServiceCgi)); [apply (connects_call GetServiceCgi) | intros ?]
    | apply (connects_bind 0); [| intros ?] ].

(** An attempt constructs the client object once, however it ends. *)
Lemma modbus_attempt_connects_once (msg : string) :
  connects 1 (modbus_attempt data msg).
Proof.
  unfold modbus_attempt.
  apply (connects_bind 1); [apply (connects_call (Connect _ _ _ _ _)) |].
  intros _. connects_rest.
Qed.

Lemma cgi_attempt_connects_once (msg : string) :
  connects 1 (cgi_attempt data msg).
Proof.
  unfold cgi_attempt.
  apply (connects_bind 1); [apply (connects_call (Connect _ _ _ _ _)) |].
  intros _. connects_rest.
Qed.

(** C3.  The fetch of either channel makes one attempt and, if that one
    raises, exactly one more.  If the retry returns, the fetch returns the
    flattened reply of the retry and a refresh caches it.  If the retry
    raises too, the client object has been constructed exactly twice, the
    fetch raises [UpdateFailed] with the text that names the channel, and a
    refresh leaves the cached snapshot, or its absence, as it was. *)
Theorem fetch_retries_once (c : coordinator) (w : world) :
  match modbus_attempt data "Getting Modbus data" w with
  | (Ok r, w1) =>
      async_update_modbus data w = (Ok (flatten_dataclass r ""), w1)
  | (Raise _, w1) =>
      match modbus_attempt data "Getting Modbus data after first exception" w1 with
      | (Ok r, w2) =>
          async_update_modbus data w = (Ok (flatten_dataclass r ""), w2) /\
          async_refresh (async_update_modbus data) c w
          = ({| coordinator_data := Some (flatten_dataclass r "");
                last_update_success := true |}, w2)
      | (Raise e, w2) =>
          let w3 :=
            warned "Can not retrieve Modbus Data from the VARTA Device. " e w2 in
          async_update_modbus data w
          = (Raise (Exn UpdateFailed
                      "Can not retrieve Modbus Data from the VARTA Device."), w3) /\
          connections w3 = (connections w + 2)%nat /\
          async_refresh (async_update_modbus data) c w
          = ({| coordinator_data := coordinator_data c;
                last_update_success := false |}, w3)
      end
  end /\
  match cgi_attempt data "Getting CGI data" w with
  | (Ok fetched, w1) =>
      async_update_cgi data w = (Ok (cgi_flat_data fetched), w1)
  | (Raise _, w1) =>
      match cgi_attempt data "Getting CGI data after first exception" w1 with
      | (Ok fetched, w2) =>
          async_update_cgi data w = (Ok (cgi_flat_data fetched), w2) /\
          async_refresh (async_update_cgi data) c w
          = ({| coordinator_data := Some (cgi_flat_data fetched);
                last_update_success := true |}, w2)
      | (Raise e, w2) =>
          let w3 :=
            warned "Can not retrieve CGI Data from the VARTA Device. " e w2 in
          async_update_cgi data w
          = (Raise (Exn UpdateFailed
                      "Can not retrieve CGI Data from the VARTA Device."), w3) /\
          connections w3 = (connections w + 2)%nat /\
          async_refresh (async_update_cgi data) c w
          = ({| coordinator_data := coordinator_data c;
                last_update_success := false |}, w3)
      end
  end.
Proof.
  split.
  - pose proof (modbus_attempt_connects_once "Getting Modbus data" w) as H1.
    unfold async_refresh, async_update_modbus, try_except_of,
      modbus_sync_update, bind, try_except, ret.
    destruct (modbus_attempt data "Getting Modbus data" w) as [[r | e1] w1];
      simpl in *; [done |].
    pose proof (modbus_attempt_connects_once
                  "Getting Modbus data after first exception" w1) as H2.
    destruct (modbus_attempt data "Getting Modbus data after first exception" w1)
      as [[r | e2] w2]; simpl in *; [done |].
    repeat split. unfold warned, connections in *. simpl in *. lia.
  - pose proof (cgi_attempt_connects_once "Getting CGI data" w) as H1.
    unfold async_refresh, async_update_cgi, try_except_of, cgi_sync_update,
      bind, try_except, ret.
    destruct (cgi_attempt data "Getting CGI data" w) as [[r | e1] w1];
      simpl in *; [done |].
    pose proof (cgi_attempt_connects_once
                  "Getting CGI data after first exception" w1) as H2.
    destruct (cgi_attempt data "Getting CGI data after first exception" w1)
      as [[r | e2] w2]; simpl in *; [done |].
    repeat split. unfold warned, connections in *. simpl in *. lia.
Qed.
End FetchProps.

(** The second request, the first read of the registers, raises; the
    retry returns and its reply is what gets cached. *)
Example modbus_fails_once :
  let w := scripted_device (fun n => n =? 1)%nat sample_reply in
  let refreshed :=
    Init.async_refresh
      (Init.async_update_modbus (H := Decimal.builtins) sample_entry)
      stale_coordinator w in
  Init.coordinator_data refreshed.1
  = Some {[ "soc" := VInt 40; "charge_power" := VInt 100 ]} /\
  connections refreshed.2 = 2%nat /\
  length (trace refreshed.2) = 4%nat.
Proof. cbv zeta. split; [by vm_compute | done]. Qed.

(** Every request raises: two attempts, then [UpdateFailed]; the cached
    snapshot stays. *)
Example modbus_always_fails :
  let w := scripted_device (fun _ => true) sample_reply in
  (Init.async_update_modbus (H := Decimal.builtins) sample_entry w).1
  = Raise (Exn UpdateFailed "Can not retrieve Modbus Data from the VARTA Device.") /\
  connections (Init.async_update_modbus (H := Decimal.builtins) sample_entry w).2
  = 2%nat /\
  Init.coordinator_data
    (Init.async_refresh
       (Init.async_update_modbus (H := Decimal.builtins) sample_entry)
       stale_coordinator w).1
  = Init.coordinator_data stale_coordinator.
Proof. done. Qed.

(** The CGI channel: the read of the energy counters raises once.  The
    retry gives the counters, the single charge cycle count taken out of
    its list, and the nested inverter data merged in. *)
Example cgi_fails_once :
  let w := scripted_device (fun n => n =? 2)%nat sample_reply in
  let fetched := Init.async_update_cgi (H := Decimal.builtins) sample_entry w in
  fetched.1
  = Ok {[ "fan" := VInt 3; "total_grid_ac_dc" := VInt 10;
          "total_charge_cycles" := VInt 7 ]} /\
  connections fetched.2 = 2%nat.
Proof.
  cbv zeta. split; [by vm_compute | done].
Qed.

(* ===================================================================== *)
(** * Properties of the Riemann integration sensor                        *)
(* ===================================================================== *)

Lemma Qlt_bool_iff (a b : Q) : Qlt_bool a b = true <-> (a < b)%Q.
Proof.
  unfold Qlt_bool. rewrite Qlt_alt. destruct (a ?= b)%Q; split; congruence.
Qed.

Lemma round_half_even_comp (x y : Q) :
  (x == y)%Q -> round_half_even x = round_half_even y.
Proof.
  intros Hxy. unfold round_half_even.
  rewrite (Qfloor_comp _ _ Hxy).
  assert ((x - inject_Z (Qfloor y) ?= 1 # 2) = (y - inject_Z (Qfloor y) ?= 1 # 2))%Q
    as -> by (apply Qcompare_comp; [by rewrite Hxy | reflexivity]).
  reflexivity.
Qed.

Lemma round_half_even_Z (z : Z) : round_half_even (inject_Z z) = z.
Proof.
  unfold round_half_even. rewrite Qfloor_Z.
  assert ((inject_Z z - inject_Z z ?= 1 # 2)%Q = Lt) as ->; [| done].
  apply (proj1 (Qlt_alt _ _)). generalize (inject_Z z). intros q. lra.
Qed.

Lemma py_round_comp (x y : Q) (n : nat) :
  (x == y)%Q -> (py_round x n == py_round y n)%Q.
Proof.
  intros Hxy. unfold py_round.
  rewrite (round_half_even_comp (x * inject_Z (10 ^ Z.of_nat n))
             (y * inject_Z (10 ^ Z.of_nat n))); [reflexivity |].
  by rewrite Hxy.
Qed.

(** Rounding to [n] places leaves a number with at most [n] places as it
    is. *)
Lemma py_round_exact (z : Z) (n : nat) (x : Q) :
  (x == inject_Z z / inject_Z (10 ^ Z.of_nat n))%Q -> (py_round x n == x)%Q.
Proof.
  intros Hx. unfold py_round.
  assert (0 < 10 ^ Z.of_nat n) as Hpos by (apply Z.pow_pos_nonneg; lia).
  assert (~ (inject_Z (10 ^ Z.of_nat n) == 0)%Q) as Hnz.
  { unfold Qeq. simpl. lia. }
  rewrite (round_half_even_comp _ (inject_Z z)), round_half_even_Z.
  - by rewrite Hx.
  - rewrite Hx. field. exact Hnz.
Qed.

Section RiemannProps.
Context `{PyBuiltins}.
Import Sensor.
Variable d : description.

Lemma riemann_restore_ok (last_state : option stored_state) :
  riemann_ok (riemann_restore riemann_init last_state).1.
Proof.
  unfold riemann_restore, riemann_ok.
  destruct last_state as [st |]; [| done].
  by destruct (py_float (VStr (state st))).
Qed.

(** One tick keeps the invariant and does not decrease the total. *)
Lemma integrate_step (self : riemann) (data : option snapshot) (now : Z) :
  riemann_ok self ->
  riemann_ok (_async_integrate d self data now).1 /\
  (_total_energy self <= _total_energy (_async_integrate d self data now).1)%Q.
Proof.
  intros Hok. unfold _async_integrate.
  destruct data as [data |]; [| split; [done | apply Qle_refl]].
  destruct (source_key d) as [sk |]; [| split; [done | apply Qle_refl]].
  destruct (is_none (dict_get data sk)); [split; [done | apply Qle_refl] |].
  destruct (py_float (dict_get data sk)) as [p | e];
    [| split; [done | apply Qle_refl]].
  simpl. split; [apply Qabs_nonneg |].
  unfold riemann_ok in Hok.
  destruct (_last_power self) as [last_power |]; [| apply Qle_refl].
  destruct (_last_update self) as [last_update |]; [| apply Qle_refl].
  destruct (Qlt_bool 0 _ && Qlt_bool _ 1) eqn:Hgap; [| apply Qle_refl].
  apply andb_true_iff in Hgap as [Hpos _]. apply Qlt_bool_iff in Hpos.
  pose proof (Qabs_nonneg p) as Hp.
  set (td := (total_seconds now last_update / 3600)%Q) in *.
  set (power := Qabs p) in *. set (total := _total_energy self).
  clearbody td power total.
  assert (0 <= (power + last_power) / 2 * td)%Q as Harea.
  { apply Qmult_le_0_compat; qlra. }
  qlra.
Qed.

Lemma integrate_all_ok (self : riemann) (ticks : list (option snapshot * Z)) :
  riemann_ok self -> riemann_ok (integrate_all d self ticks).
Proof.
  revert self. induction ticks as [| tick ticks IH]; intros self Hok; [done |].
  apply IH. by apply integrate_step.
Qed.

(** C9.  The accumulated energy never decreases.  From startup, whatever
    the host has stored, and after any sequence of ticks, one more tick
    leaves the accumulated energy at least as large as it was, whatever
    the snapshot holds and whatever the clock reads.  More generally this
    holds from every state whose last power, if there is one, is not
    negative; the sensor stores the last power as an absolute value, so it
    reaches no other state. *)
Theorem accumulated_energy_never_decreases
    (ticks : list (option snapshot * Z)) (data : option snapshot) (now : Z) :
  (forall last_state : option stored_state,
      let reached :=
        integrate_all d (riemann_restore riemann_init last_state).1 ticks in
      (_total_energy reached
       <= _total_energy (_async_integrate d reached data now).1)%Q) /\
  (forall self : riemann,
      riemann_ok self ->
      let reached := integrate_all d self ticks in
      (_total_energy reached
       <= _total_energy (_async_integrate d reached data now).1)%Q).
Proof.
  split.
  - intros last_state reached.
    apply integrate_step, integrate_all_ok, riemann_restore_ok.
  - intros self Hok reached.
    apply integrate_step. by apply integrate_all_ok.
Qed.
End RiemannProps.

Lemma accumulated_energy_never_decreases_witness :
  (1 <= Sensor._total_energy
          (Sensor._async_integrate (H := Decimal.builtins) energy_charged
             mid_run (Some {[ "charge_power" := VInt (-300) ]})
             (one_hour / 2)).1)%Q.
Proof.
  apply (proj2 (accumulated_energy_never_decreases (H := Decimal.builtins)
                  energy_charged []
                  (Some {[ "charge_power" := VInt (-300) ]}) (one_hour / 2))
           mid_run).
  unfold riemann_ok, mid_run. simpl. unfold Qle. simpl. lia.
Defined.

(** Without the invariant the total can go down; the state below is not
    one the sensor reaches, since the last power is always stored as an
    absolute value. *)
Example negative_last_power_decreases :
  (Sensor._total_energy
     (Sensor._async_integrate (H := Decimal.builtins) energy_charged
        negative_last_power (Some hundred_watts) (one_hour / 2)).1
   == 9 # 10)%Q.
Proof. by vm_compute. Qed.

Section TwoSamples.
Context `{PyBuiltins}.
Import Sensor.

Lemma integrate_hundred_watts (self : riemann) (now : Z) :
  (_async_integrate energy_charged self (Some hundred_watts) now).1
  = {| _total_energy :=
         match _last_power self, _last_update self with
         | Some last_power, Some last_update =>
             let time_delta := (total_seconds now last_update / 3600)%Q in
             if Qlt_bool 0 time_delta && Qlt_bool time_delta 1
             then (_total_energy self
                   + (100 + last_power) / 2 * time_delta / 1000)%Q
             else _total_energy self
         | _, _ => _total_energy self
         end;
       _last_power := Some 100%Q;
       _last_update := Some now;
       riemann_attr_native_value :=
         Some (py_round
                 match _last_power self, _last_update self with
                 | Some last_power, Some last_update =>
                     let time_delta := (total_seconds now last_update / 3600)%Q in
                     if Qlt_bool 0 time_delta && Qlt_bool time_delta 1
                     then (_total_energy self
                           + (100 + last_power) / 2 * time_delta / 1000)%Q
                     else _total_energy self
                 | _, _ => _total_energy self
                 end 6) |}.
Proof. reflexivity. Qed.

Lemma elapsed_positive (t0 gap : Z) :
  Qlt_bool 0 (total_seconds (t0 + gap) t0 / 3600) = (0 <? gap).
Proof.
  unfold total_seconds. replace (t0 + gap - t0) with gap by lia.
  destruct (Z.ltb_spec 0 gap) as [Hgap | Hgap].
  - apply Qlt_bool_iff. unfold Qlt. simpl. lia.
  - destruct (Qlt_bool 0 _) eqn:Hlt; [| done].
    apply Qlt_bool_iff in Hlt. unfold Qlt in Hlt. simpl in Hlt. lia.
Qed.

Lemma elapsed_under_ceiling (t0 gap : Z) :
  Qlt_bool (total_seconds (t0 + gap) t0 / 3600) 1 = (gap <? one_hour).
Proof.
  unfold total_seconds, one_hour. replace (t0 + gap - t0) with gap by lia.
  destruct (Z.ltb_spec gap 3600000000) as [Hgap | Hgap].
  - apply Qlt_bool_iff. unfold Qlt. simpl. lia.
  - destruct (Qlt_bool _ 1) eqn:Hlt; [| done].
    apply Qlt_bool_iff in Hlt. unfold Qlt in Hlt. simpl in Hlt. lia.
Qed.

(** C1, as the code has it.  Two samples of 100 W, the second [gap]
    microseconds after the first, starting from the initial state: if the
    gap is positive and under one hour the accumulated energy is the
    trapezoid, 100 W times the gap in hours, over 1000; at a gap of one
    hour or more, and at a gap that is not positive, nothing is added. *)
Theorem two_samples_trapezoid (t0 gap : Z) :
  (_total_energy (integrate_all energy_charged riemann_init (two_samples t0 gap))
   == if (0 <? gap) && (gap <? one_hour)
      then 100 * (inject_Z gap / 1000000 / 3600) / 1000
      else 0)%Q.
Proof.
  unfold integrate_all, two_samples. cbn [fold_left fst snd].
  rewrite !integrate_hundred_watts. cbn [_last_power _last_update _total_energy riemann_init].
  cbv zeta. rewrite elapsed_positive, elapsed_under_ceiling.
  destruct ((0 <? gap) && (gap <? one_hour)); [| reflexivity].
  unfold total_seconds. replace (t0 + gap - t0) with gap by lia.
  generalize (inject_Z gap). intros g. literal_inverses. ring.
Qed.
End TwoSamples.

(** C1, as the spec has it, fails: the two samples are exactly one hour
    apart, the elapsed time is not under the ceiling, and the accumulated
    energy stays 0, which is not near 0.1. *)
Lemma one_hour_apart_adds_nothing :
  (Sensor._total_energy
     (Sensor.integrate_all (H := Decimal.builtins) energy_charged
        Sensor.riemann_init (two_samples 0 one_hour)) == 0)%Q /\
  ~ (Qabs (Sensor._total_energy
             (Sensor.integrate_all (H := Decimal.builtins) energy_charged
                Sensor.riemann_init (two_samples 0 one_hour)) - (1 # 10))
     <= 1 # 100)%Q.
Proof. split; by vm_compute. Qed.

(** One second less than the hour gives all but the last second of the
    0.1 kWh. *)
Example just_under_one_hour :
  (Sensor._total_energy
     (Sensor.integrate_all (H := Decimal.builtins) energy_charged
        Sensor.riemann_init (two_samples 0 (one_hour - 1000000)))
   == 3599 # 36000)%Q.
Proof. by vm_compute. Qed.

(* ===================================================================== *)
(** * Restoring the accumulated energy at startup                         *)
(* ===================================================================== *)

Section RestoreProps.
Context `{PyBuiltins}.
Import Sensor.
Variable d : description.

Lemma riemann_restore_keeps_samples (self : riemann)
    (last_state : option stored_state) :
  _last_power (riemann_restore self last_state).1 = _last_power self /\
  _last_update (riemann_restore self last_state).1 = _last_update self.
Proof.
  unfold riemann_restore. destruct last_state as [st |]; [| done].
  by destruct (py_float (VStr (state st))).
Qed.

(** The first tick of a state without a previous sample adds nothing and,
    if it writes a state, writes the rounded total. *)
Lemma first_tick_publishes (self : riemann) (data : option snapshot) (now : Z) :
  _last_power self = None ->
  _total_energy (_async_integrate d self data now).1 = _total_energy self /\
  match (_async_integrate d self data now).2 with
  | Written x => x = Some (riemann_native_value self)
  | _ => True
  end.
Proof.
  intros Hlast. unfold _async_integrate.
  destruct data as [data |]; [| done].
  destruct (source_key d) as [sk |]; [| done].
  destruct (is_none (dict_get data sk)); [done |].
  destruct (py_float (dict_get data sk)) as [p | e]; [| done].
  rewrite Hlast. by simpl.
Qed.

Lemma riemann_native_value_rounds (self : riemann) :
  (riemann_native_value self == py_round (_total_energy self) 6)%Q.
Proof.
  unfold riemann_native_value.
  destruct (Qeq_bool (_total_energy self) 0) eqn:Hzero; [| reflexivity].
  apply Qeq_bool_iff in Hzero. by rewrite (py_round_comp _ _ 6 Hzero).
Qed.

(** C8, as the code has it.  The restore is a total function of what the
    host has stored.  With nothing stored the state stays as [__init__]
    made it, energy zero, and nothing is logged.  A stored text that
    [float] reads as [v] sets the energy to [v], without a log record; a
    text it does not read sets the energy to zero and logs one warning.
    The first tick after the restore adds nothing, and what it writes is
    the energy rounded to 6 places: the energy itself when that has at
    most 6 places. *)
Theorem restore_accumulated_energy (last_state : option stored_state)
    (data : option snapshot) (now : Z) :
  let restored := riemann_restore riemann_init last_state in
  let first := _async_integrate d restored.1 data now in
  match last_state with
  | None => restored = (riemann_init, [])
  | Some st =>
      match py_float_of_string (state st) with
      | Some v => _total_energy restored.1 = v /\ restored.2 = []
      | None =>
          _total_energy restored.1 = 0%Q /\
          restored.2
          = [(WARNING, "Could not restore state for %s, starting from 0")]
      end
  end /\
  _total_energy first.1 = _total_energy restored.1 /\
  match first.2 with
  | Written x => x = Some (riemann_native_value restored.1)
  | _ => True
  end /\
  (riemann_native_value restored.1 == py_round (_total_energy restored.1) 6)%Q /\
  (forall z : Z,
      (_total_energy restored.1 == inject_Z z / 1000000)%Q ->
      (riemann_native_value restored.1 == _total_energy restored.1)%Q).
Proof.
  intros restored first. subst restored first.
  split; [| split; [| split; [| split]]].
  - unfold riemann_restore. destruct last_state as [st |]; [| done].
    simpl. by destruct (py_float_of_string (state st)).
  - apply first_tick_publishes.
    by destruct (riemann_restore_keeps_samples riemann_init last_state) as [-> _].
  - apply first_tick_publishes.
    by destruct (riemann_restore_keeps_samples riemann_init last_state) as [-> _].
  - apply riemann_native_value_rounds.
  - intros z Hz. rewrite riemann_native_value_rounds.
    by apply (py_round_exact z 6).
Qed.
End RestoreProps.

Lemma restore_accumulated_energy_witness :
  (Sensor.riemann_native_value
     (Sensor.riemann_restore (H := Decimal.builtins) Sensor.riemann_init
        (Some (stored "5.0"))).1
   == 5)%Q.
Proof.
  pose proof (restore_accumulated_energy (H := Decimal.builtins) energy_charged
                (Some (stored "5.0")) None 0) as (_ & _ & _ & _ & Hexact).
  rewrite (Hexact 5000000); by vm_compute.
Defined.

(** C8, as the spec has it, fails twice.  With nothing stored no warning
    is logged.  And a stored number with more than 6 places comes back
    rounded, not as it was. *)
Lemma missing_state_logs_no_warning :
  (Sensor.riemann_restore (H := Decimal.builtins) Sensor.riemann_init None).2
  = [] /\
  Sensor._total_energy
    (Sensor.riemann_restore (H := Decimal.builtins) Sensor.riemann_init
       (Some (stored "0.1234567"))).1
  = (1234567 # 10000000)%Q /\
  (Sensor.riemann_native_value
     (Sensor.riemann_restore (H := Decimal.builtins) Sensor.riemann_init
        (Some (stored "0.1234567"))).1
   == 123457 # 1000000)%Q /\
  ~ (Sensor.riemann_native_value
       (Sensor.riemann_restore (H := Decimal.builtins) Sensor.riemann_init
          (Some (stored "0.1234567"))).1
     == 1234567 # 10000000)%Q.
Proof. repeat split; by vm_compute. Qed.

Example restore_not_a_number :
  Sensor.riemann_restore (H := Decimal.builtins) Sensor.riemann_init
    (Some (stored "unavailable"))
  = (Sensor.riemann_init,
     [(WARNING, "Could not restore state for %s, starting from 0")]).
Proof. reflexivity. Qed.

(* ===================================================================== *)
(** * Properties of the stateless derived metrics                         *)
(* ===================================================================== *)

Section MetricProps.
Import Sensor.

Lemma as_number_not_none (v : value) (q : Q) :
  as_number v = Some q -> is_none v = false.
Proof. by destruct v. Qed.

Lemma number_of (v : value) (q : Q) : as_number v = Some q -> number v = Ok q.
Proof. unfold number. by intros ->. Qed.

Lemma equals_zero_number (v : value) (q : Q) :
  as_number v = Some q -> ~ (q == 0)%Q -> equals_zero v = false.
Proof.
  unfold equals_zero. intros -> Hq.
  destruct (Qeq_bool q 0) eqn:Hz; [| done]. by apply Qeq_bool_iff in Hz.
Qed.

(** C5.  Battery efficiency is unavailable whenever the charged counter
    is absent or 0, and no path raises a division error.  With a charged
    counter that is a number other than 0, the result follows the
    discharged counter: unavailable if that is absent, [TypeError] (which
    the caller turns into unavailable) if it is not a number, and else
    100 times discharged over charged, capped at 100. *)
Theorem battery_efficiency_capped (cgi_data : snapshot) :
  let charged := dict_get cgi_data "total_inverter_ac_dc" in
  let discharged := dict_get cgi_data "total_inverter_dc_ac" in
  let efficiency := _calculate_battery_efficiency cgi_data in
  (charged = VNone \/ equals_zero charged = true -> efficiency = Ok None) /\
  (forall c : Q,
      as_number charged = Some c -> ~ (c == 0)%Q ->
      match discharged with
      | VNone => efficiency = Ok None
      | _ =>
          match as_number discharged with
          | Some dis =>
              efficiency = Ok (Some (Qmin (dis / c * 100) 100)) /\
              (Qmin (dis / c * 100) 100 <= 100)%Q
          | None =>
              efficiency = Raise (Exn TypeError "unsupported operand type(s)")
          end
      end) /\
  (forall e, efficiency = Raise e -> exn_class e = TypeError).
Proof.
  intros charged discharged efficiency.
  subst efficiency. unfold _calculate_battery_efficiency.
  fold charged discharged.
  split; [| split].
  - intros [-> | Hzero]; [done |].
    rewrite Hzero. by rewrite orb_true_r.
  - intros c Hc Hnz.
    rewrite (as_number_not_none _ _ Hc), (equals_zero_number _ _ Hc Hnz).
    rewrite (number_of _ _ Hc).
    destruct discharged as [| z | q | s | xs | items | fields]; simpl; try done;
      split; try done; apply Q.le_min_r.
  - intros e.
    destruct (is_none charged || is_none discharged || equals_zero charged);
      [done |].
    unfold number.
    destruct (as_number discharged), (as_number charged); intros He;
      try done; by injection He as <-.
Qed.

Lemma battery_efficiency_capped_witness :
  exists r : Q,
    _calculate_battery_efficiency
      {[ "total_inverter_ac_dc" := VInt 10; "total_inverter_dc_ac" := VInt 12 ]}
    = Ok (Some r) /\ (r == 100)%Q.
Proof.
  pose proof (battery_efficiency_capped
                {[ "total_inverter_ac_dc" := VInt 10;
                   "total_inverter_dc_ac" := VInt 12 ]}) as (_ & Hnum & _).
  specialize (Hnum 10%Q eq_refl). simpl in Hnum.
  destruct Hnum as [Heff _]; [by vm_compute |].
  eexists. split; [exact Heff | by vm_compute].
Defined.

Example battery_efficiency_not_charged :
  _calculate_battery_efficiency
    {[ "total_inverter_ac_dc" := VInt 0; "total_inverter_dc_ac" := VInt 12 ]}
  = Ok None.
Proof. reflexivity. Qed.

Example battery_efficiency_no_discharge_counter :
  _calculate_battery_efficiency {[ "total_inverter_ac_dc" := VInt 10 ]}
  = Ok None.
Proof. reflexivity. Qed.

(** C6.  Self-sufficiency is exactly 100 when grid import plus battery
    discharge is 0, as it is when both counters are 0 and when both are
    absent; for any other pair of numbers it is 100 times discharge over
    the sum, clamped; and every value it returns lies in [0, 100]. *)
Theorem self_sufficiency_clamped (modbus_data cgi_data : snapshot) :
  let grid_import := dict_get_or cgi_data "total_grid_ac_dc" (VInt 0) in
  let battery_discharge :=
    dict_get_or cgi_data "total_inverter_dc_ac" (VInt 0) in
  let rate := _calculate_self_sufficiency modbus_data cgi_data in
  (forall g b : Q,
      as_number grid_import = Some g -> as_number battery_discharge = Some b ->
      ((g + b == 0)%Q -> rate = Ok (Some 100%Q)) /\
      (~ (g + b == 0)%Q ->
       rate = Ok (Some (Qmin (Qmax (b / (g + b) * 100) 0) 100)))) /\
  (forall r : Q, rate = Ok (Some r) -> (0 <= r <= 100)%Q) /\
  _calculate_self_sufficiency modbus_data ∅ = Ok (Some 100%Q) /\
  _calculate_self_sufficiency modbus_data
    {[ "total_grid_ac_dc" := VInt 0; "total_inverter_dc_ac" := VInt 0 ]}
  = Ok (Some 100%Q).
Proof.
  intros grid_import battery_discharge rate.
  subst rate. unfold _calculate_self_sufficiency.
  fold grid_import battery_discharge.
  split; [| split; [| split; reflexivity]].
  - intros g b Hg Hb.
    rewrite (as_number_not_none _ _ Hg), (as_number_not_none _ _ Hb).
    rewrite (number_of _ _ Hg), (number_of _ _ Hb). simpl.
    split; intros Hsum.
    + apply Qeq_bool_iff in Hsum. by rewrite Hsum.
    + destruct (Qeq_bool (g + b) 0) eqn:Hz; [| done].
      by apply Qeq_bool_iff in Hz.
  - intros r.
    destruct (is_none grid_import || is_none battery_discharge); [done |].
    unfold number.
    destruct (as_number grid_import) as [g |],
             (as_number battery_discharge) as [b |]; try done.
    destruct (Qeq_bool (g + b) 0); intros Hr; injection Hr as <-.
    + split; unfold Qle; simpl; lia.
    + split; [| apply Q.le_min_r].
      apply Q.min_glb; [apply Q.le_max_r | unfold Qle; simpl; lia].
Qed.

Lemma self_sufficiency_clamped_witness :
  _calculate_self_sufficiency ∅
    {[ "total_grid_ac_dc" := VInt 30; "total_inverter_dc_ac" := VInt 10 ]}
  = Ok (Some (Qmin (Qmax (10 / (30 + 10) * 100) 0) 100)).
Proof.
  pose proof (self_sufficiency_clamped ∅
                {[ "total_grid_ac_dc" := VInt 30;
                   "total_inverter_dc_ac" := VInt 10 ]}) as (Hnum & _).
  destruct (Hnum 30%Q 10%Q eq_refl eq_refl) as [_ Hrate].
  apply Hrate. by vm_compute.
Defined.
End MetricProps.

(* ===================================================================== *)
(** * Properties of the daily accumulators                                *)
(* ===================================================================== *)

Section DailyProps.
Import Sensor.

Lemma counter_snapshot_get (field : string) (z : Z) :
  dict_get (counter_snapshot field z) field = VInt z.
Proof. unfold dict_get, counter_snapshot. by rewrite lookup_singleton_eq. Qed.

Lemma date_same (today : string) : date_differs (VStr today) today = false.
Proof. unfold date_differs. by rewrite String.eqb_refl. Qed.

Lemma positive_step (z prev : Z) (daily : Q) :
  ((if Qlt_bool 0 (inject_Z z - inject_Z prev)
    then daily + (inject_Z z - inject_Z prev) else daily)
   == daily + inject_Z (Z.max 0 (z - prev)))%Q.
Proof.
  destruct (Qlt_bool 0 _) eqn:Hlt.
  - apply Qlt_bool_iff in Hlt.
    assert (prev < z) as Hz.
    { unfold Qlt in Hlt. simpl in Hlt. lia. }
    rewrite Z.max_r by lia. unfold Zminus.
    rewrite inject_Z_plus, inject_Z_opp. ring.
  - assert (z <= prev) as Hz.
    { destruct (Z.le_gt_cases z prev) as [? | Hgt]; [done |].
      assert (Qlt_bool 0 (inject_Z z - inject_Z prev) = true) as Habs;
        [| congruence].
      apply Qlt_bool_iff. unfold Qlt. simpl. lia. }
    rewrite Z.max_l by lia. ring.
Qed.

(** One tick of the import sensor on the day of its reset date, with a
    previous reading. *)
Lemma import_tick (self : calculated) (today : string) (z prev : Z) :
  _last_reset_date self = VStr today ->
  _last_import_total self = VInt prev ->
  let self' :=
    (_async_calculate daily_net_grid_import self (Some ∅)
       (Some (counter_snapshot "total_grid_ac_dc" z)) today).1 in
  _last_reset_date self' = VStr today /\
  _last_import_total self' = VInt z /\
  (_daily_import self' == _daily_import self + inject_Z (Z.max 0 (z - prev)))%Q.
Proof.
  intros Hdate Hlast. unfold _async_calculate. simpl.
  unfold _calculate_daily_net_import.
  rewrite Hdate, date_same, counter_snapshot_get, Hlast. simpl.
  destruct (Qlt_bool 0 (inject_Z z - inject_Z prev)) eqn:Hlt; simpl;
    (split; [done |]; split; [done |]);
    rewrite <- (positive_step z prev (_daily_import self)), Hlt; reflexivity.
Qed.

Lemma export_tick (self : calculated) (today : string) (z prev : Z) :
  _last_reset_date self = VStr today ->
  _last_export_total self = VInt prev ->
  let self' :=
    (_async_calculate daily_net_grid_export self (Some ∅)
       (Some (counter_snapshot "total_grid_dc_ac" z)) today).1 in
  _last_reset_date self' = VStr today /\
  _last_export_total self' = VInt z /\
  (_daily_export self' == _daily_export self + inject_Z (Z.max 0 (z - prev)))%Q.
Proof.
  intros Hdate Hlast. unfold _async_calculate. simpl.
  unfold _calculate_daily_net_export.
  rewrite Hdate, date_same, counter_snapshot_get, Hlast. simpl.
  destruct (Qlt_bool 0 (inject_Z z - inject_Z prev)) eqn:Hlt; simpl;
    (split; [done |]; split; [done |]);
    rewrite <- (positive_step z prev (_daily_export self)), Hlt; reflexivity.
Qed.

Lemma import_ticks (today : string) (counters : list Z) :
  forall (self : calculated) (prev : Z),
    _last_reset_date self = VStr today ->
    _last_import_total self = VInt prev ->
    (_daily_import
       (calculate_all daily_net_grid_import self today
          (counter_ticks "total_grid_ac_dc" counters))
     == _daily_import self + inject_Z (positive_deltas prev counters))%Q.
Proof.
  induction counters as [| z rest IH]; intros self prev Hdate Hlast.
  - simpl. ring.
  - unfold calculate_all, counter_ticks. cbn [map fold_left fst snd].
    destruct (import_tick self today z prev Hdate Hlast) as (Hd & Hl & Hsum).
    fold (counter_ticks "total_grid_ac_dc" rest).
    fold (calculate_all daily_net_grid_import
            (_async_calculate daily_net_grid_import self (Some ∅)
               (Some (counter_snapshot "total_grid_ac_dc" z)) today).1
            today (counter_ticks "total_grid_ac_dc" rest)).
    rewrite (IH _ z Hd Hl), Hsum. cbn [positive_deltas].
    rewrite inject_Z_plus. ring.
Qed.

Lemma export_ticks (today : string) (counters : list Z) :
  forall (self : calculated) (prev : Z),
    _last_reset_date self = VStr today ->
    _last_export_total self = VInt prev ->
    (_daily_export
       (calculate_all daily_net_grid_export self today
          (counter_ticks "total_grid_dc_ac" counters))
     == _daily_export self + inject_Z (positive_deltas prev counters))%Q.
Proof.
  induction counters as [| z rest IH]; intros self prev Hdate Hlast.
  - simpl. ring.
  - unfold calculate_all, counter_ticks. cbn [map fold_left fst snd].
    destruct (export_tick self today z prev Hdate Hlast) as (Hd & Hl & Hsum).
    fold (counter_ticks "total_grid_dc_ac" rest).
    fold (calculate_all daily_net_grid_export
            (_async_calculate daily_net_grid_export self (Some ∅)
               (Some (counter_snapshot "total_grid_dc_ac" z)) today).1
            today (counter_ticks "total_grid_dc_ac" rest)).
    rewrite (IH _ z Hd Hl), Hsum. cbn [positive_deltas].
    rewrite inject_Z_plus. ring.
Qed.

Lemma positive_deltas_nonneg (prev : Z) (counters : list Z) :
  0 <= positive_deltas prev counters.
Proof.
  revert prev. induction counters as [| z rest IH]; intros prev; simpl; [lia |].
  specialize (IH z). lia.
Qed.

(** C4.  A daily accumulator that starts without a previous reading and
    is fed counter readings on one calendar day holds the sum of the
    positive steps between consecutive readings: a step down adds 0.  For
    the readings 10, 15, 12, 20 that is 5 + 0 + 8 = 13.  The same holds
    for import and for export. *)
Theorem daily_accumulator_adds_positive_deltas (today : string)
    (first : Z) (rest : list Z) :
  (_daily_import
     (calculate_all daily_net_grid_import calculated_init today
        (counter_ticks "total_grid_ac_dc" (first :: rest)))
   == inject_Z (positive_deltas first rest))%Q /\
  (_daily_export
     (calculate_all daily_net_grid_export calculated_init today
        (counter_ticks "total_grid_dc_ac" (first :: rest)))
   == inject_Z (positive_deltas first rest))%Q /\
  0 <= positive_deltas first rest /\
  positive_deltas 10 [15; 12; 20] = 5 + 0 + 8.
Proof.
  split; [| split; [| split; [apply positive_deltas_nonneg | reflexivity]]].
  - unfold calculate_all, counter_ticks. cbn [map fold_left fst snd].
    fold (counter_ticks "total_grid_ac_dc" rest).
    set (self := (_async_calculate _ calculated_init _ _ today).1).
    fold (calculate_all daily_net_grid_import self today
            (counter_ticks "total_grid_ac_dc" rest)).
    assert (_last_reset_date self = VStr today /\
            _last_import_total self = VInt first /\
            _daily_import self = 0%Q) as (Hd & Hl & Hzero).
    { subst self. unfold _async_calculate. simpl.
      unfold _calculate_daily_net_import. simpl.
      by rewrite counter_snapshot_get. }
    rewrite (import_ticks today rest self first Hd Hl), Hzero. ring.
  - unfold calculate_all, counter_ticks. cbn [map fold_left fst snd].
    fold (counter_ticks "total_grid_dc_ac" rest).
    set (self := (_async_calculate _ calculated_init _ _ today).1).
    fold (calculate_all daily_net_grid_export self today
            (counter_ticks "total_grid_dc_ac" rest)).
    assert (_last_reset_date self = VStr today /\
            _last_export_total self = VInt first /\
            _daily_export self = 0%Q) as (Hd & Hl & Hzero).
    { subst self. unfold _async_calculate. simpl.
      unfold _calculate_daily_net_export. simpl.
      by rewrite counter_snapshot_get. }
    rewrite (export_ticks today rest self first Hd Hl), Hzero. ring.
Qed.

(** The value the sensor reports after the four readings. *)
Example daily_import_reports_13 :
  match
    (_async_calculate daily_net_grid_import
       (calculate_all daily_net_grid_import calculated_init "2024-05-01"
          (counter_ticks "total_grid_ac_dc" [10; 15; 12]))
       (Some ∅) (Some (counter_snapshot "total_grid_ac_dc" 20))
       "2024-05-01").2
  with
  | Written (Some x) => (x == 13)%Q
  | _ => False
  end.
Proof. by vm_compute. Qed.
End DailyProps.

Section DailyRestore.
Context `{PyBuiltins}.
Import Sensor.

(** The restore writes the stored value to [_attr_native_value] and the
    stored date to [_last_reset_date]; it does not touch the running
    totals. *)
Lemma calculated_restore_totals (d : description) (self : calculated)
    (last_state : option stored_state) :
  _daily_import (calculated_restore d self last_state) = _daily_import self /\
  _last_import_total (calculated_restore d self last_state)
  = _last_import_total self /\
  _daily_export (calculated_restore d self last_state) = _daily_export self /\
  _last_export_total (calculated_restore d self last_state)
  = _last_export_total self.
Proof.
  unfold calculated_restore.
  destruct (is_daily_key (key d)); [| done].
  destruct last_state as [st |]; [| done].
  destruct (py_float (VStr (state st))); [| done].
  by destruct (bool_decide (attributes st = ∅)).
Qed.

Lemma import_first_tick (self : calculated) (modbus_data : snapshot)
    (cgi_data : option snapshot) (today : string) :
  _daily_import self = 0%Q ->
  _last_import_total self = VNone ->
  let ticked :=
    _async_calculate daily_net_grid_import self (Some modbus_data) cgi_data
      today in
  _daily_import ticked.1 = 0%Q /\
  exists x : Q, ticked.2 = Written (Some x) /\ (x == 0)%Q.
Proof.
  intros Hzero Hlast. unfold _async_calculate. simpl.
  unfold _calculate_daily_net_import.
  set (cgi := match cgi_data with Some c => c | None => ∅ end).
  destruct (date_differs (_last_reset_date self) today); simpl;
    destruct (is_none (dict_get cgi "total_grid_ac_dc")); simpl;
    rewrite ?Hlast, ?Hzero; simpl;
    (split; [done |]); eexists; (split; [reflexivity | by vm_compute]).
Qed.

(** C2, on the code.  Whatever value and reset date the host has stored
    for the daily import sensor, the first tick after the restart, with a
    snapshot at hand, leaves the running total at 0 and reports 0: the
    stored value is put into [_attr_native_value] only, which this tick
    overwrites, and never into [_daily_import]. *)
Theorem daily_restore_discards_running_value
    (last_state : option stored_state) (modbus_data : snapshot)
    (cgi_data : option snapshot) (today : string) :
  let started :=
    calculated_async_added_to_hass daily_net_grid_import calculated_init
      last_state (Some modbus_data) cgi_data today in
  _daily_import started.1 = 0%Q /\
  exists x : Q, started.2 = Written (Some x) /\ (x == 0)%Q.
Proof.
  unfold calculated_async_added_to_hass.
  destruct (calculated_restore_totals daily_net_grid_import calculated_init
              last_state) as (Hd & Hl & _).
  by apply import_first_tick.
Qed.
End DailyRestore.

(** A restart on 2024-05-01 with 5.0 stored for that same day and the
    counter at 10, then 12: the restore reads the 5.0 and the date, but
    the sensor reports 0 and then 2, not 5 and 7. *)
Example daily_restart_same_day :
  let restored :=
    Sensor.calculated_restore (H := Decimal.builtins) daily_net_grid_import
      Sensor.calculated_init (Some (stored_daily "5.0" "2024-05-01")) in
  let started :=
    Sensor._async_calculate daily_net_grid_import restored (Some ∅)
      (Some (counter_snapshot "total_grid_ac_dc" 10)) "2024-05-01" in
  let next :=
    Sensor._async_calculate daily_net_grid_import started.1 (Some ∅)
      (Some (counter_snapshot "total_grid_ac_dc" 12)) "2024-05-01" in
  Sensor._attr_native_value restored = Some (50 # 10)%Q /\
  Sensor._last_reset_date restored = VStr "2024-05-01" /\
  match started.2, next.2 with
  | Sensor.Written (Some x), Sensor.Written (Some y) => (x == 0)%Q /\ (y == 2)%Q
  | _, _ => False
  end.
Proof. by vm_compute. Qed.

(** A restart on the day after the stored reset date: the accumulator is
    reset, and the first tick reports 0. *)
Example daily_restart_next_day :
  let started :=
    Sensor.calculated_async_added_to_hass (H := Decimal.builtins)
      daily_net_grid_import Sensor.calculated_init
      (Some (stored_daily "5.0" "2024-04-30")) (Some ∅)
      (Some (counter_snapshot "total_grid_ac_dc" 10)) "2024-05-01" in
  Sensor._last_reset_date started.1 = VStr "2024-05-01" /\
  match started.2 with
  | Sensor.Written (Some x) => (x == 0)%Q
  | _ => False
  end.
Proof. by vm_compute. Qed.

(* ===================================================================== *)
(** * The metrics and the text conversions, as the callbacks write them   *)
(* ===================================================================== *)

(** Charged 0: the callback writes "unavailable"; nothing is raised. *)
Example battery_efficiency_unavailable :
  (Sensor._async_calculate battery_efficiency Sensor.calculated_init (Some ∅)
     (Some {[ "total_inverter_ac_dc" := VInt 0;
              "total_inverter_dc_ac" := VInt 12 ]}) "2024-05-01").2
  = Sensor.Written None.
Proof. reflexivity. Qed.

(** A counter that is not a number: [TypeError] is caught, "unavailable". *)
Example battery_efficiency_type_error :
  (Sensor._async_calculate battery_efficiency Sensor.calculated_init (Some ∅)
     (Some {[ "total_inverter_ac_dc" := VInt 10;
              "total_inverter_dc_ac" := VStr "n/a" ]}) "2024-05-01").2
  = Sensor.Written None.
Proof. reflexivity. Qed.

Example self_sufficiency_no_consumption :
  (Sensor._async_calculate self_sufficiency_rate Sensor.calculated_init (Some ∅)
     (Some {[ "total_grid_ac_dc" := VInt 0;
              "total_inverter_dc_ac" := VInt 0 ]}) "2024-05-01").2
  = Sensor.Written (Some 100%Q).
Proof. reflexivity. Qed.

Section TextConversion.
Context `{PyBuiltins}.
Import Sensor.

(** The state text entity never raises on a value: a code that [int]
    reads goes through [get_state_text], anything else gets the fallback
    text around [str] of the value. *)
Lemma state_text_conversion_total (data : snapshot) (sk : string) :
  let d := {| key := "stateTextDerived"; source_key := Some sk |} in
  match dict_get data sk with
  | VNone => _handle_coordinator_update d data = Ok VNone
  | v =>
      match py_int v with
      | Ok code =>
          _handle_coordinator_update d data
          = Ok (VStr (Const.get_state_text (Some code)))
      | Raise _ =>
          _handle_coordinator_update d data
          = Ok (VStr ("Unknown State (" +:+ py_str v +:+ ")"))
      end
  end.
Proof.
  unfold _handle_coordinator_update. simpl.
  destruct (dict_get data sk) as [| z | q | s | xs | items | fields]; simpl;
    try done; by destruct (py_int_of_string s).
Qed.
End TextConversion.

Example state_text_from_snapshot :
  Sensor._handle_coordinator_update (H := Decimal.builtins)
    {| Sensor.key := "stateTextDerived"; Sensor.source_key := Some "state" |}
    {[ "state" := VInt 2 ]}
  = Ok (VStr "Charge (Laden)").
Proof. reflexivity. Qed.

Example error_text_from_snapshot :
  Sensor._handle_coordinator_update (H := Decimal.builtins)
    {| Sensor.key := "errorText"; Sensor.source_key := Some "error_code" |}
    {[ "error_code" := VStr "seven" ]}
  = Ok (VStr "Unknown Error (seven)").
Proof. reflexivity. Qed.

(* ===================================================================== *)
(** * Further properties of flatten_dataclass                             *)
(* ===================================================================== *)

Section FlattenComposition.
Context `{PyBuiltins}.
Import Init.

Lemma entry_leaves_record (name : string) (inner : list (string * value)) :
  entry_leaves (name, VData inner) = inner ≫= entry_leaves.
Proof. unfold entry_leaves. simpl snd. apply (leaves_container false). Qed.

(** X1.  Flattening a record (or a dict) whose entries are those of one
    followed by those of another gives the flattening of the first updated
    with the flattening of the second: on a name both hold, the second
    wins. *)
Theorem flatten_concatenation (as_dict : bool)
    (first second : list (string * value)) (prefix : string) :
  flatten_dataclass (container as_dict (first ++ second)) prefix
  = dict_update (flatten_dataclass (container as_dict first) prefix)
      (flatten_dataclass (container as_dict second) prefix).
Proof.
  rewrite !flatten_written, !leaves_container, bind_app.
  by rewrite set_leaves_app, written_in_order_app.
Qed.

(** X2.  A nested record flattens as if its fields were declared in its
    place: the name of the field that holds it plays no part. *)
Theorem flatten_nested_in_place (as_dict : bool)
    (before : list (string * value)) (name : string)
    (inner after : list (string * value)) (prefix : string) :
  flatten_dataclass (container as_dict (before ++ (name, VData inner) :: after))
    prefix
  = flatten_dataclass (container as_dict (before ++ inner ++ after)) prefix.
Proof.
  rewrite !flatten_written, !leaves_container.
  rewrite !bind_app, bind_cons. by rewrite entry_leaves_record.
Qed.

(** X3.  An entry that is [None] is as good as not there: it adds no key
    and it does not erase what an earlier entry of the same name wrote. *)
Theorem flatten_none_is_absent (as_dict : bool)
    (before : list (string * value)) (name : string)
    (after : list (string * value)) (prefix : string) :
  flatten_dataclass (container as_dict (before ++ (name, VNone) :: after)) prefix
  = flatten_dataclass (container as_dict (before ++ after)) prefix.
Proof.
  rewrite !flatten_written, !leaves_container.
  by rewrite !bind_app, bind_cons, !set_leaves_app.
Qed.

Lemma leaves_hold_no_record (obj : value) (k : string) (v : value) :
  (k, v) ∈ leaves obj -> is_none v = true \/ as_number v <> None
                         \/ (exists s, v = VStr s) \/ (exists xs, v = VList xs)
                         \/ (exists items, v = VDict items).
Proof.
  revert k v.
  induction obj as [| | | | | items IH | fields IH] using value_ind;
    intros k v Hin; try by apply elem_of_nil in Hin.
  - rewrite (leaves_container true) in Hin.
    apply list_elem_of_bind in Hin as ([n x] & Hin & Hx).
    rewrite Forall_forall in IH. specialize (IH _ Hx). simpl in IH.
    unfold entry_leaves in Hin. simpl in Hin.
    destruct x; try (apply list_elem_of_singleton in Hin; injection Hin as -> ->);
      simpl; eauto 6; by apply IH in Hin.
  - rewrite (leaves_container false) in Hin.
    apply list_elem_of_bind in Hin as ([n x] & Hin & Hx).
    rewrite Forall_forall in IH. specialize (IH _ Hx). simpl in IH.
    unfold entry_leaves in Hin. simpl in Hin.
    destruct x; try (apply list_elem_of_singleton in Hin; injection Hin as -> ->);
      simpl; eauto 6; by apply IH in Hin.
Qed.

Lemma flatten_values_flat (obj : value) (prefix : string) (k : string)
    (v : value) :
  flatten_dataclass obj prefix !! k = Some v -> flat_value v.
Proof.
  intros Hk. split; [by apply is_none_false, (flatten_no_none obj prefix k) |].
  intros fields ->.
  destruct obj as [| z | q | s | xs | items | fs];
    [ simpl in Hk; by rewrite lookup_empty in Hk
    | simpl in Hk; apply lookup_singleton_Some in Hk as [_ Hk];
      discriminate Hk ..
    | | ].
  - change (VDict items) with (container true items) in Hk.
    rewrite flatten_written in Hk. apply written_lookup_elem in Hk.
    apply elem_of_set_leaves in Hk as [Hk _].
    apply leaves_hold_no_record in Hk
      as [? | [? | [[? ?] | [[? ?] | [? ?]]]]]; done.
  - change (VData fs) with (container false fs) in Hk.
    rewrite flatten_written in Hk. apply written_lookup_elem in Hk.
    apply elem_of_set_leaves in Hk as [Hk _].
    apply leaves_hold_no_record in Hk
      as [? | [? | [[? ?] | [[? ?] | [? ?]]]]]; done.
Qed.

Lemma flat_entries_leaves (l : list (string * value)) :
  Forall (fun e => flat_value e.2) l ->
  set_leaves (l ≫= entry_leaves) = l.
Proof.
  induction 1 as [| [k v] rest [Hnone Hrec] _ IH]; [done |].
  rewrite bind_cons, set_leaves_app, IH. simpl in *.
  unfold entry_leaves, set_leaves. simpl.
  destruct v; try done; try (by rewrite filter_cons_True).
  by destruct (Hrec fields).
Qed.

(** A dict that is flat already flattens to itself. *)
Lemma flatten_flat_dict (m : snapshot) (prefix : string) :
  (forall k v, m !! k = Some v -> flat_value v) ->
  flatten_dataclass (VDict (map_to_list m)) prefix = m.
Proof.
  intros Hflat.
  change (VDict (map_to_list m)) with (container true (map_to_list m)).
  rewrite flatten_written, leaves_container, flat_entries_leaves.
  - unfold written_in_order.
    rewrite <- (list_to_map_to_list m) at 2.
    apply list_to_map_proper; [| apply reverse_Permutation].
    rewrite fmap_reverse, reverse_Permutation. apply NoDup_fst_map_to_list.
  - apply Forall_forall. intros [k v] Hin.
    apply elem_of_map_to_list in Hin. by apply (Hflat k).
Qed.

(** X4.  Flattening is idempotent: the result of a flattening, taken as a
    dict, flattens to itself.  No value of a result is [None] or a
    record. *)
Theorem flatten_idempotent (obj : value) (prefix prefix' : string) :
  flatten_dataclass (VDict (map_to_list (flatten_dataclass obj prefix))) prefix'
  = flatten_dataclass obj prefix.
Proof. apply flatten_flat_dict. intros k v. apply flatten_values_flat. Qed.
End FlattenComposition.

(* ===================================================================== *)
(** * Further properties of the fetch functions                           *)
(* ===================================================================== *)

Section Effects.

Lemma requests_ret {A} (P : request -> Prop) (a : A) : requests P 0 (ret a).
Proof. intros w. exists []. repeat split; [constructor | done]. Qed.

Lemma requests_raise {A} (P : request -> Prop) (e : exn) :
  requests P 0 (raise (A := A) e).
Proof. intros w. exists []. repeat split; [constructor | done]. Qed.

Lemma requests_lift {A} (P : request -> Prop) (r : result A) :
  requests P 0 (lift r).
Proof. intros w. exists []. repeat split; [constructor | done]. Qed.

Lemma requests_log (P : request -> Prop) (l : level) (msg : string) :
  requests P 0 (log l msg).
Proof. intros w. exists []. repeat split; [constructor | done]. Qed.

Lemma requests_call (P : request -> Prop) (r : request) :
  P r -> requests P 1 (call r).
Proof.
  intros Hr w. exists [r]. repeat split; [by constructor | done].
Qed.

Lemma requests_bind {A B} (P : request -> Prop) (n1 n2 : nat)
    (m : io A) (k : A -> io B) :
  requests P n1 m -> (forall a, requests P n2 (k a)) ->
  requests P (n1 + n2) (bind m k).
Proof.
  intros Hm Hk w. unfold bind.
  destruct (Hm w) as (new1 & Ht1 & HP1 & Hn1 & Ho1).
  destruct (m w) as [[a | e] w1]; simpl in *.
  - destruct (Hk a w1) as (new2 & Ht2 & HP2 & Hn2 & Ho2).
    exists (new2 ++ new1). rewrite Ht2, Ht1, Ho2, Ho1, length_app.
    repeat split; [by rewrite (assoc_L (++)) | by apply Forall_app | lia].
  - exists new1. repeat split; try done. lia.
Qed.

Lemma requests_try_except {A} (P : request -> Prop) (n1 n2 : nat)
    (body : io A) (handler : exn -> io A) :
  requests P n1 body -> (forall e, requests P n2 (handler e)) ->
  requests P (n1 + n2) (try_except body handler).
Proof.
  intros Hm Hk w. unfold try_except.
  destruct (Hm w) as (new1 & Ht1 & HP1 & Hn1 & Ho1).
  destruct (body w) as [[a | e] w1]; simpl in *.
  - exists new1. repeat split; try done. lia.
  - destruct (Hk e w1) as (new2 & Ht2 & HP2 & Hn2 & Ho2).
    exists (new2 ++ new1). rewrite Ht2, Ht1, Ho2, Ho1, length_app.
    repeat split; [by rewrite (assoc_L (++)) | by apply Forall_app | lia].
Qed.

Lemma requests_try_except_of {A} (P : request -> Prop) (n : nat)
    (K : exn_kind) (body : io A) (handler : exn -> io A) :
  requests P n body -> (forall e, requests P 0 (handler e)) ->
  requests P n (try_except_of K body handler).
Proof.
  intros Hm Hk w. unfold try_except_of.
  destruct (Hm w) as (new1 & Ht1 & HP1 & Hn1 & Ho1).
  destruct (body w) as [[a | e] w1]; simpl in *.
  - by exists new1.
  - destruct (exn_kind_eqb (exn_class e) K); [| by exists new1].
    destruct (Hk e w1) as (new2 & Ht2 & HP2 & Hn2 & Ho2).
    exists (new2 ++ new1). rewrite Ht2, Ht1, Ho2, Ho1, length_app.
    repeat split; [by rewrite (assoc_L (++)) | by apply Forall_app | lia].
Qed.





Lemma warns_warning (msg : string) : warns 1 (log WARNING msg).
Proof.
  intros w. unfold warnings, log. simpl.
  rewrite ?filter_cons_True by done. simpl. lia.
Qed.

End Effects.

Ltac requests_steps :=
  repeat first
    [ apply requests_ret | apply requests_raise | apply requests_lift
    | apply requests_log
    | apply requests_call
    | apply (requests_bind _ 0); [| intros ?]
    | apply (requests_bind _ 1); [| intros ?] ].


Section FetchFootprint.
Context `{PyBuiltins}.
Import Init.
Variable data : entry_data.

Lemma modbus_attempt_requests (msg : string) :
  requests (modbus_request data) 2 (modbus_attempt data msg).
Proof.
  unfold modbus_attempt.
  apply (requests_bind _ 1 1); [apply requests_call; by left | intros _].
  apply (requests_bind _ 0 1); [apply requests_log | intros _].
  apply requests_call. by right.
Qed.

Lemma cgi_attempt_requests (msg : string) :
  requests (cgi_request data) 5 (cgi_attempt data msg).
Proof.
  unfold cgi_attempt.
  apply (requests_bind _ 1 4); [apply requests_call; by left | intros _].
  apply (requests_bind _ 0 4); [apply requests_log | intros _].
  apply (requests_bind _ 1 3);
    [apply requests_call; unfold cgi_request; tauto | intros ems].
  apply (requests_bind _ 1 2);
    [apply requests_call; unfold cgi_request; tauto | intros energy].
  apply (requests_bind _ 1 1);
    [apply requests_call; unfold cgi_request; tauto | intros info].
  apply (requests_bind _ 1 0);
    [apply requests_call; unfold cgi_request; tauto | intros service].
  apply (requests_bind _ 0 0); [apply requests_lift | intros energy'].
  apply requests_ret.
Qed.



(** X5.  A fetch talks to the device within bounds.  The Modbus fetch
    makes at most 4 requests, each either the construction of a client
    for the configured host, port and credentials with the CGI flag off,
    or a read of all Modbus data.  The CGI fetch makes at most 10, each
    either the construction of a client with the CGI flag on, for
    [host_cgi] or, if that is empty, for [host], or one of the four CGI
    reads.  Neither makes any other request. *)
Theorem fetch_requests_bounded :
  requests (modbus_request data) 4 (async_update_modbus data) /\
  requests (cgi_request data) 10 (async_update_cgi data).
Proof.
  split.
  - unfold async_update_modbus.
    apply requests_try_except_of; [| intros e; apply requests_raise].
    unfold modbus_sync_update.
    apply (requests_bind _ 4 0); [| intros r; apply requests_ret].
    apply (requests_try_except _ 2 2); [apply modbus_attempt_requests |].
    intros _.
    apply (requests_try_except _ 2 0); [apply modbus_attempt_requests |].
    intros e. apply (requests_bind _ 0 0); [apply requests_log | intros _].
    apply requests_raise.
  - unfold async_update_cgi.
    apply requests_try_except_of; [| intros e; apply requests_raise].
    unfold cgi_sync_update.
    apply (requests_bind _ 10 0); [| intros r; apply requests_ret].
    apply (requests_try_except _ 5 5); [apply cgi_attempt_requests |].
    intros _.
    apply (requests_try_except _ 5 0); [apply cgi_attempt_requests |].
    intros e. apply (requests_bind _ 0 0); [apply requests_log | intros _].
    apply requests_raise.
Qed.

(** X6.  A fetch constructs one client if its first attempt returns and
    two if it raises: never none and never more than two. *)
Theorem fetch_attempts_counted (w : world) :
  connections (async_update_modbus data w).2
  = (connections w
     + match (modbus_attempt data "Getting Modbus data" w).1 with
       | Ok _ => 1
       | Raise _ => 2
       end)%nat /\
  connections (async_update_cgi data w).2
  = (connections w
     + match (cgi_attempt data "Getting CGI data" w).1 with
       | Ok _ => 1
       | Raise _ => 2
       end)%nat.
Proof.
  split.
  - pose proof (modbus_attempt_connects_once data "Getting Modbus data" w) as H1.
    unfold async_update_modbus, try_except_of, modbus_sync_update, bind,
      try_except, ret.
    destruct (modbus_attempt data "Getting Modbus data" w) as [[r | e1] w1];
      simpl in *; [lia |].
    pose proof (modbus_attempt_connects_once data
                  "Getting Modbus data after first exception" w1) as H2.
    destruct (modbus_attempt data "Getting Modbus data after first exception" w1)
      as [[r | e2] w2]; simpl in *; [lia |].
    unfold connections in *. simpl in *. lia.
  - pose proof (cgi_attempt_connects_once data "Getting CGI data" w) as H1.
    unfold async_update_cgi, try_except_of, cgi_sync_update, bind,
      try_except, ret.
    destruct (cgi_attempt data "Getting CGI data" w) as [[r | e1] w1];
      simpl in *; [lia |].
    pose proof (cgi_attempt_connects_once data
                  "Getting CGI data after first exception" w1) as H2.
    destruct (cgi_attempt data "Getting CGI data after first exception" w1)
      as [[r | e2] w2]; simpl in *; [lia |].
    unfold connections in *. simpl in *. lia.
Qed.

End FetchFootprint.

Section CgiMerge.
Context `{PyBuiltins}.
Import Init.

Lemma merge_nested_part (ems_data : value) (name : string) (flat : snapshot) :
  merge_nested ems_data name flat = nested_part ems_data name ∪ flat.
Proof.
  unfold merge_nested, nested_part, dict_update.
  destruct (getattr ems_data name) as [[] |]; by rewrite ?(left_id_L ∅ (∪)).
Qed.

(** In the CGI snapshot the fields of [ens_data] win over those of
    [emeter_data], these over those of [wr_data], and these over every
    other field of the reply that has the same name. *)
Lemma cgi_nested_data_precedence (result ems_data : value) (k : string) :
  cgi_flat_data (result, ems_data) !! k
  = match nested_part ems_data "ens_data" !! k with
    | Some v => Some v
    | None =>
        match nested_part ems_data "emeter_data" !! k with
        | Some v => Some v
        | None =>
            match nested_part ems_data "wr_data" !! k with
            | Some v => Some v
            | None => flatten_dataclass result "" !! k
            end
        end
    end.
Proof.
  unfold cgi_flat_data. simpl. rewrite !merge_nested_part.
  rewrite !lookup_union.
  destruct (nested_part ems_data "ens_data" !! k),
           (nested_part ems_data "emeter_data" !! k),
           (nested_part ems_data "wr_data" !! k),
           (flatten_dataclass result "" !! k); done.
Qed.

Lemma written_is_some (l : list (string * value)) (k : string) :
  is_Some (written_in_order l !! k) <-> exists v, (k, v) ∈ l.
Proof.
  split.
  - intros [v Hv]. exists v. by apply written_lookup_elem.
  - intros [v Hin]. apply not_eq_None_Some. intros Hnone.
    apply not_elem_of_list_to_map_2 in Hnone. apply Hnone.
    apply list_elem_of_fmap. exists (k, v). split; [done |].
    by rewrite elem_of_reverse.
Qed.

Lemma leaves_of_field (fields : list (string * value)) (name : string)
    (inner : list (string * value)) (e : string * value) :
  field_get fields name = Some (VData inner) ->
  e ∈ leaves (VData inner) -> e ∈ leaves (VData fields).
Proof.
  intros Hget He. rewrite (leaves_container false).
  apply list_elem_of_bind.
  induction fields as [| [n v] rest IH]; [done |].
  simpl in Hget. destruct (String.eqb n name).
  - injection Hget as ->. exists (n, VData inner). split; [done | left].
  - destruct (IH Hget) as (entry & Hentry & Hin).
    exists entry. split; [done | by right].
Qed.

Lemma nested_part_keys (fields : list (string * value)) (name : string)
    (k : string) :
  record_or_none fields name ->
  is_Some (nested_part (VData fields) name !! k) ->
  is_Some (flatten_dataclass (VData fields) "" !! k).
Proof.
  unfold record_or_none, nested_part, getattr.
  destruct (field_get fields name) as [[| | | | | | inner] |] eqn:Hget;
    try done; try (intros _ [? Hk]; by rewrite lookup_empty in Hk).
  intros _.
  change (VData inner) with (container false inner).
  change (VData fields) with (container false fields).
  rewrite !flatten_written.
  rewrite !written_is_some. intros [v Hv]. exists v.
  apply elem_of_set_leaves in Hv as [Hv Hnone].
  apply elem_of_set_leaves. split; [| done].
  by apply (leaves_of_field fields name inner).
Qed.

(** X8.  When [ems_data] is a record whose [wr_data], [emeter_data] and
    [ens_data] are records, [None] or missing, the three merges after the
    flattening add no key to the CGI snapshot: the flattening of the
    whole reply holds the names of their fields already. *)
Theorem cgi_merges_add_no_key (ems_fields : list (string * value))
    (energy_data info_data service_data : value) :
  record_or_none ems_fields "wr_data" ->
  record_or_none ems_fields "emeter_data" ->
  record_or_none ems_fields "ens_data" ->
  let result :=
    cgi_container (VData ems_fields) energy_data info_data service_data in
  dom (cgi_flat_data (result, VData ems_fields))
  = dom (flatten_dataclass result "").
Proof.
  intros Hwr Hemeter Hens result.
  assert (forall name k,
             record_or_none ems_fields name ->
             is_Some (nested_part (VData ems_fields) name !! k) ->
             is_Some (flatten_dataclass result "" !! k)) as Hsub.
  { intros name k Hname Hk. apply nested_part_keys in Hk; [| done].
    subst result. unfold cgi_container.
    rewrite (flatten_written false) in Hk.
    rewrite (flatten_written false).
    rewrite written_is_some in *. destruct Hk as [v Hv]. exists v.
    apply elem_of_set_leaves in Hv as [Hv Hnone].
    apply elem_of_set_leaves. split; [| done].
    rewrite (leaves_container false), bind_cons, entry_leaves_record.
    apply elem_of_app. left. by rewrite <- (leaves_container false). }
  unfold cgi_flat_data. simpl. rewrite !merge_nested_part.
  apply set_eq. intros k. rewrite !dom_union, !elem_of_union, !elem_of_dom.
  split; [| tauto].
  intros [Hk | [Hk | [Hk | Hk]]]; eauto.
Qed.
End CgiMerge.

Lemma cgi_merges_add_no_key_witness :
  dom (Init.cgi_flat_data (H := Decimal.builtins)
         (cgi_container (sample_reply GetEmsCgi) (sample_reply GetEnergyCgi)
            (VData []) (VData []),
          sample_reply GetEmsCgi))
  = dom (Init.flatten_dataclass (H := Decimal.builtins)
           (cgi_container (sample_reply GetEmsCgi) (sample_reply GetEnergyCgi)
              (VData []) (VData [])) "").
Proof.
  apply (cgi_merges_add_no_key (H := Decimal.builtins)
           [ ("wr_data", VData [ ("fan", VInt 3) ]); ("emeter_data", VNone) ]
           (sample_reply GetEnergyCgi) (VData []) (VData [])); exact I.
Defined.

(* ===================================================================== *)
(** * The catalog and the entities                                        *)
(* ===================================================================== *)

Lemma string_app_inj (prefix a b : string) :
  prefix +:+ a = prefix +:+ b -> a = b.
Proof.
  induction prefix as [| c prefix IH]; simpl; [done |].
  intros Heq. injection Heq as Heq. by apply IH.
Qed.

(** X9.  The entities the platform sets up have pairwise distinct unique
    ids, with and without the CGI sensors: no key occurs twice in the four
    tables of the catalog. *)
Theorem unique_ids_distinct (config_unique_id : string)
    (cgi cgi_coordinator : bool) :
  NoDup (Platform.unique_id config_unique_id
           <$> Platform.async_setup_entry cgi cgi_coordinator).
Proof.
  assert (NoDup ((fun e => Sensor.key (Platform.entity_description e))
                   <$> Platform.async_setup_entry cgi cgi_coordinator))
    as Hkeys.
  { destruct cgi, cgi_coordinator;
      apply (bool_decide_unpack _); by vm_compute. }
  change (Platform.unique_id config_unique_id)
    with ((fun k => config_unique_id +:+ "-" +:+ k)
            ∘ (fun e => Sensor.key (Platform.entity_description e))).
  rewrite list_fmap_compose.
  apply NoDup_fmap_2; [| done].
  intros a b Heq. apply string_app_inj in Heq. by apply string_app_inj in Heq.
Qed.




(* ===================================================================== *)
(** * Properties of the entity that mirrors a snapshot field              *)
(* ===================================================================== *)

Section EntityProps.
Context `{PyBuiltins}.
Import Sensor.

(** X11.  [_handle_coordinator_update] raises in two cases only: the
    description has no source key ([ValueError]), or the entity is the
    apparent power and the snapshot holds for it something that is neither
    [None] nor a number ([TypeError] from [abs]).  The conversions of the
    state and error texts never raise. *)
Theorem handle_update_raises_iff (d : description) (data : snapshot) :
  match _handle_coordinator_update d data with
  | Ok _ =>
      exists sk, source_key d = Some sk /\
        (key d = "powerApparent" ->
         dict_get data sk = VNone \/ as_number (dict_get data sk) <> None)
  | Raise e =>
      (source_key d = None /\ exn_class e = ValueError) \/
      (exists sk, source_key d = Some sk /\ key d = "powerApparent" /\
         exn_class e = TypeError /\
         dict_get data sk <> VNone /\ as_number (dict_get data sk) = None)
  end.
Proof.
  unfold _handle_coordinator_update.
  destruct (source_key d) as [sk |]; [| by left].
  destruct (String.eqb_spec (key d) "powerApparent") as [Hkey | Hkey];
    destruct (dict_get data sk) eqn:Hv; simpl; rewrite ?andb_false_r;
    repeat case_match;
    first
      [ by (exists sk; rewrite Hv; split;
            [done | intros ?; first [by left | by right]])
      | by (right; exists sk; rewrite Hv; repeat split) ].
Qed.

(** X12.  The apparent power entity never reports a negative number: a
    value it reports is [None] or the absolute value of the snapshot's
    number, an [int] for an [int] and a [float] for a [float]. *)
Theorem apparent_power_not_negative (sk : string) (data : snapshot) (v : value) :
  _handle_coordinator_update
    {| key := "powerApparent"; source_key := Some sk |} data = Ok v ->
  match dict_get data sk with
  | VNone => v = VNone
  | VInt z => v = VInt (Z.abs z) /\ 0 <= Z.abs z
  | VFloat q => v = VFloat (Qabs q) /\ (0 <= Qabs q)%Q
  | _ => False
  end.
Proof.
  unfold _handle_coordinator_update. simpl.
  destruct (dict_get data sk); simpl; intros Hv; try done;
    injection Hv as <-; try done.
  - split; [done | lia].
  - split; [done | apply Qabs_nonneg].
Qed.

(** The state text and the error text entities turn every value
    of the snapshot into a text: a value [int] reads goes through the
    table lookup, with [float]s truncated, and any other value gets the
    fallback text around its [str]; a field that is missing stays
    [None]. *)
Lemma text_entities_yield_text (is_error : bool) (sk : string)
    (data : snapshot) :
  let d := {| key := if is_error then "errorText" else "stateTextDerived";
              source_key := Some sk |} in
  let lookup := if is_error then Const.get_error_text else Const.get_state_text in
  let fallback := if is_error then "Unknown Error (" else "Unknown State (" in
  match dict_get data sk with
  | VNone => _handle_coordinator_update d data = Ok VNone
  | v =>
      _handle_coordinator_update d data
      = Ok (VStr match py_int v with
                 | Ok code => lookup (Some code)
                 | Raise _ => fallback +:+ py_str v +:+ ")"
                 end)
  end.
Proof.
  unfold _handle_coordinator_update.
  destruct is_error; simpl;
    destruct (dict_get data sk) as [| z | q | s | xs | items | fields]; simpl;
    try done; by destruct (py_int_of_string s).
Qed.

(** The two ways an update raises. *)
Lemma handle_update_raise_cases (d : description) (data : snapshot) (e : exn) :
  _handle_coordinator_update d data = Raise e ->
  source_key d = None \/ (key d = "powerApparent" /\ exn_class e = TypeError).
Proof.
  unfold _handle_coordinator_update.
  destruct (source_key d) as [sk |]; [| by left].
  destruct (String.eqb_spec (key d) "powerApparent") as [Hkey | Hkey];
    destruct (dict_get data sk); simpl; rewrite ?andb_false_r;
    repeat case_match; try done; intros [= <-]; by right.
Qed.

(** X13.  No entity of the Modbus and CGI tables raises the
    configuration error: every row has a source key, so the only row
    whose update can raise is the apparent power. *)
Theorem catalog_entities_update (d : description) (data : snapshot) :
  d ∈ Catalog.SENSORS_MODBUS ++ Catalog.SENSORS_CGI ->
  match _handle_coordinator_update d data with
  | Ok _ => True
  | Raise e => key d = "powerApparent" /\ exn_class e = TypeError
  end.
Proof.
  intros Hd.
  assert (source_key d <> None) as Hsk.
  { revert Hd. unfold Catalog.SENSORS_MODBUS, Catalog.SENSORS_CGI. simpl.
    intros Hd.
    repeat (apply elem_of_cons in Hd as [-> | Hd]; [done |]).
    by apply elem_of_nil in Hd. }
  destruct (_handle_coordinator_update d data) as [v | e] eqn:Hupdate; [done |].
  by destruct (handle_update_raise_cases d data e Hupdate) as [Hnone | Hcase].
Qed.
End EntityProps.

Lemma apparent_power_not_negative_witness :
  VInt 750 = VInt (Z.abs (-750)) /\ 0 <= Z.abs (-750).
Proof.
  exact (apparent_power_not_negative (H := Decimal.builtins)
           "apparent_power" {[ "apparent_power" := VInt (-750) ]}
           (VInt 750) eq_refl).
Defined.

Lemma catalog_entities_update_witness :
  match
    Sensor._handle_coordinator_update (H := Decimal.builtins)
      (Catalog.row "errorText" "error_code") {[ "error_code" := VInt 7 ]}
  with
  | Ok _ => True
  | Raise e =>
      Sensor.key (Catalog.row "errorText" "error_code") = "powerApparent" /\
      exn_class e = TypeError
  end.
Proof.
  apply (catalog_entities_update (H := Decimal.builtins)).
  do 4 right. left.
Defined.

(* ===================================================================== *)
(** * Further properties of the Riemann integration sensor                *)
(* ===================================================================== *)

Section IntegrateMore.
Context `{PyBuiltins}.
Import Sensor.

(** X14.  A tick either changes nothing or takes a sample.  When it
    writes no state (no snapshot, no source key, the field missing or
    [None], or a value [float] rejects) the integration state is
    untouched.  When it writes, it records the clock reading and a power
    that is not negative as the last sample, and what it writes is the
    [native_value] of the new state. *)
Theorem integrate_changes_only_on_write (d : description) (self : riemann)
    (data : option snapshot) (now : Z) :
  let ticked := _async_integrate d self data now in
  match ticked.2 with
  | Written v =>
      v = Some (riemann_native_value ticked.1) /\
      _last_update ticked.1 = Some now /\
      exists p : Q, _last_power ticked.1 = Some p /\ (0 <= p)%Q
  | NotWritten | Failed _ => ticked.1 = self
  end.
Proof.
  unfold _async_integrate.
  destruct data as [data |]; [| done].
  destruct (source_key d) as [sk |]; [| done].
  destruct (is_none (dict_get data sk)); [done |].
  destruct (py_float (dict_get data sk)) as [p | e]; [| done].
  simpl. repeat split. eexists. split; [done | apply Qabs_nonneg].
Qed.

Lemma elapsed_in_range (now last_update : Z) :
  Qlt_bool 0 (total_seconds now last_update / 3600)
  && Qlt_bool (total_seconds now last_update / 3600) 1
  = (0 <? now - last_update) && (now - last_update <? one_hour).
Proof.
  replace now with (last_update + (now - last_update)) at 1 2 by lia.
  by rewrite elapsed_positive, elapsed_under_ceiling.
Qed.

(** X15.  A tick that does not come strictly after the last sample, or
    that comes an hour or more after it, adds nothing to the accumulated
    energy, whatever the powers are. *)
Theorem integrate_skips_out_of_range (d : description) (self : riemann)
    (data : option snapshot) (now last_update : Z) :
  _last_update self = Some last_update ->
  now - last_update <= 0 \/ one_hour <= now - last_update ->
  _total_energy (_async_integrate d self data now).1 = _total_energy self.
Proof.
  intros Hlast Hgap. unfold _async_integrate.
  destruct data as [data |]; [| done].
  destruct (source_key d) as [sk |]; [| done].
  destruct (is_none (dict_get data sk)); [done |].
  destruct (py_float (dict_get data sk)) as [p | e]; [| done].
  simpl. rewrite Hlast. destruct (_last_power self) as [last_power |]; [| done].
  rewrite elapsed_in_range.
  destruct (Z.ltb_spec 0 (now - last_update)),
           (Z.ltb_spec (now - last_update) one_hour); simpl; try done; lia.
Qed.

(** X16.  The direction of the power plays no part: a tick on a snapshot
    that holds a power and the tick on the snapshot that holds its
    negation give the same state and write the same value. *)
Theorem integrate_ignores_sign (k sk : string) (self : riemann)
    (data : snapshot) (now : Z) :
  let d := {| key := k; source_key := Some sk |} in
  (forall z : Z,
      _async_integrate d self (Some (<[sk := VInt z]> data)) now
      = _async_integrate d self (Some (<[sk := VInt (- z)]> data)) now) /\
  (forall q : Q,
      _async_integrate d self (Some (<[sk := VFloat q]> data)) now
      = _async_integrate d self (Some (<[sk := VFloat (- q)]> data)) now).
Proof.
  split.
  - intros z. unfold _async_integrate, dict_get. simpl.
    rewrite !lookup_insert_eq. simpl. by rewrite !Z.abs_opp.
  - intros q. unfold _async_integrate, dict_get. simpl.
    rewrite !lookup_insert_eq. destruct q as [n den]. simpl.
    by rewrite !Z.abs_opp.
Qed.
End IntegrateMore.

Lemma integrate_skips_out_of_range_witness :
  Sensor._total_energy
    (Sensor._async_integrate (H := Decimal.builtins) energy_charged mid_run
       (Some hundred_watts) (2 * one_hour)).1
  = 1%Q.
Proof.
  apply (integrate_skips_out_of_range (H := Decimal.builtins) energy_charged
           mid_run (Some hundred_watts) (2 * one_hour) 0 eq_refl).
  right. unfold one_hour. lia.
Defined.

Section ConstantPower.
Context `{PyBuiltins}.
Import Sensor.

Lemma integrate_number (d : description) (sk : string) (self : riemann)
    (data : snapshot) (now : Z) (p : Q) :
  source_key d = Some sk ->
  is_none (dict_get data sk) = false ->
  py_float (dict_get data sk) = Ok p ->
  (_async_integrate d self (Some data) now).1
  = let total :=
      match _last_power self, _last_update self with
      | Some last_power, Some last_update =>
          if Qlt_bool 0 (total_seconds now last_update / 3600)
             && Qlt_bool (total_seconds now last_update / 3600) 1
          then (_total_energy self
                + (Qabs p + last_power) / 2
                  * (total_seconds now last_update / 3600) / 1000)%Q
          else _total_energy self
      | _, _ => _total_energy self
      end in
    {| _total_energy := total;
       _last_power := Some (Qabs p);
       _last_update := Some now;
       riemann_attr_native_value := Some (py_round total 6) |}.
Proof.
  intros Hsk Hnone Hp. unfold _async_integrate. by rewrite Hsk, Hnone, Hp.
Qed.

Lemma in_range_gap (t g : Z) :
  0 < g < one_hour ->
  Qlt_bool 0 (total_seconds (t + g) t / 3600)
  && Qlt_bool (total_seconds (t + g) t / 3600) 1 = true.
Proof.
  intros Hg. rewrite elapsed_positive, elapsed_under_ceiling.
  apply andb_true_iff. split; apply Z.ltb_lt; lia.
Qed.

(** One tick of constant power, in range. *)
Lemma constant_power_tick (d : description) (sk : string) (z : Z)
    (data : snapshot) (self : riemann) (t g : Z) :
  source_key d = Some sk ->
  _last_power self = Some (Qabs (inject_Z z)) ->
  _last_update self = Some t ->
  0 < g < one_hour ->
  let self' :=
    (_async_integrate d self (Some (<[sk := VInt z]> data)) (t + g)).1 in
  _last_power self' = Some (Qabs (inject_Z z)) /\
  _last_update self' = Some (t + g) /\
  (_total_energy self'
   == _total_energy self
      + Qabs (inject_Z z) * (inject_Z g / 1000000 / 3600) / 1000)%Q.
Proof.
  intros Hsk Hpower Hupdate Hg self'. subst self'.
  rewrite (integrate_number d sk self _ (t + g) (inject_Z z) Hsk);
    [| | ]; try (unfold dict_get; by rewrite lookup_insert_eq).
  cbv zeta. cbn [_last_power _last_update _total_energy].
  rewrite Hpower, Hupdate, (in_range_gap t g Hg).
  repeat split.
  unfold total_seconds. replace (t + g - t) with g by lia.
  generalize (Qabs (inject_Z z)) (inject_Z g) (_total_energy self).
  intros P G T. literal_inverses. ring.
Qed.

(** X17.  Constant power integrates to power times elapsed time, however
    the samples are spaced: after a last sample of [z] watts, ticks that
    each come less than an hour after the one before and all read [z]
    watts add [|z|] times the whole elapsed time in hours, over 1000. *)
Theorem constant_power_energy (k sk : string) (z : Z) (data : snapshot)
    (gaps : list Z) (total : Q) (t0 : Z) :
  Forall (fun g => 0 < g < one_hour) gaps ->
  let d := {| key := k; source_key := Some sk |} in
  (_total_energy
     (integrate_all d (sampled total (Qabs (inject_Z z)) t0)
        (ticks_after (<[sk := VInt z]> data) t0 gaps))
   == total
      + Qabs (inject_Z z) * (inject_Z (sum_of gaps) / 1000000 / 3600) / 1000)%Q.
Proof.
  intros Hgaps d.
  assert (forall (self : riemann) (t : Z),
             _last_power self = Some (Qabs (inject_Z z)) ->
             _last_update self = Some t ->
             (_total_energy
                (integrate_all d self
                   (ticks_after (<[sk := VInt z]> data) t gaps))
              == _total_energy self
                 + Qabs (inject_Z z)
                   * (inject_Z (sum_of gaps) / 1000000 / 3600) / 1000)%Q)
    as Hrun; [| by apply Hrun].
  induction Hgaps as [| g rest Hg _ IH]; intros self t Hpower Hupdate.
  - simpl. generalize (Qabs (inject_Z z)) (_total_energy self).
    intros P T. literal_inverses. ring.
  - cbn [ticks_after integrate_all fold_left fst snd].
    destruct (constant_power_tick d sk z data self t g eq_refl Hpower Hupdate Hg)
      as (Hp & Hu & Hsum).
    fold (integrate_all d
            (_async_integrate d self (Some (<[sk := VInt z]> data)) (t + g)).1
            (ticks_after (<[sk := VInt z]> data) (t + g) rest)).
    rewrite (IH _ (t + g) Hp Hu), Hsum.
    unfold sum_of. cbn [fold_right]. fold (sum_of rest).
    rewrite inject_Z_plus.
    generalize (Qabs (inject_Z z)) (inject_Z g) (inject_Z (sum_of rest))
      (_total_energy self).
    intros P G R T. literal_inverses. ring.
Qed.

(** X18.  What a tick in range adds lies between the two rectangles: at
    least the smaller of the two powers times the elapsed hours over
    1000, and at most the larger. *)
Theorem trapezoid_between_rectangles (d : description) (sk : string)
    (self : riemann) (data : snapshot) (now last_update : Z)
    (p last_power : Q) :
  source_key d = Some sk ->
  is_none (dict_get data sk) = false ->
  py_float (dict_get data sk) = Ok p ->
  _last_power self = Some last_power ->
  _last_update self = Some last_update ->
  0 < now - last_update < one_hour ->
  let hours := (total_seconds now last_update / 3600)%Q in
  let added :=
    (_total_energy (_async_integrate d self (Some data) now).1
     - _total_energy self)%Q in
  (Qmin (Qabs p) last_power * hours / 1000 <= added)%Q /\
  (added <= Qmax (Qabs p) last_power * hours / 1000)%Q.
Proof.
  intros Hsk Hnone Hp Hpower Hupdate Hgap hours added. subst added.
  rewrite (integrate_number d sk self data now p Hsk Hnone Hp).
  cbv zeta. cbn [_total_energy]. rewrite Hpower, Hupdate.
  replace now with (last_update + (now - last_update)) at 1 2 3 4 by lia.
  rewrite (in_range_gap last_update (now - last_update) Hgap).
  replace (last_update + (now - last_update)) with now by lia.
  fold hours.
  assert (0 < hours)%Q as Hpos.
  { subst hours.
    replace now with (last_update + (now - last_update)) by lia.
    apply Qlt_bool_iff. rewrite elapsed_positive. apply Z.ltb_lt. lia. }
  clearbody hours.
  generalize (Qabs p) (_total_energy self). intros P T.
  destruct (Q.min_spec P last_power) as [[Hlt ->] | [Hle ->]],
           (Q.max_spec P last_power) as [[Hlt' ->] | [Hle' ->]];
    literal_inverses; split; nra.
Qed.
End ConstantPower.

Lemma constant_power_energy_witness :
  (Sensor._total_energy
     (Sensor.integrate_all (H := Decimal.builtins) energy_charged
        (sampled 0 (Qabs (inject_Z (-200))) 0)
        (ticks_after (<[ "charge_power" := VInt (-200) ]> ∅) 0 uneven_gaps))
   == 0 + Qabs (inject_Z (-200))
          * (inject_Z (sum_of uneven_gaps) / 1000000 / 3600) / 1000)%Q.
Proof.
  apply (constant_power_energy (H := Decimal.builtins) "energyCharged"
           "charge_power" (-200) ∅ uneven_gaps 0 0).
  repeat constructor; unfold one_hour; lia.
Defined.

Lemma trapezoid_between_rectangles_witness :
  (Qmin (Qabs 300) 100 * (Sensor.total_seconds (one_hour / 2) 0 / 3600) / 1000
   <= Sensor._total_energy
        (Sensor._async_integrate (H := Decimal.builtins) energy_charged mid_run
           (Some {[ "charge_power" := VInt 300 ]}) (one_hour / 2)).1
      - Sensor._total_energy mid_run)%Q.
Proof.
  refine (proj1 (trapezoid_between_rectangles (H := Decimal.builtins)
                   energy_charged "charge_power" mid_run
                   {[ "charge_power" := VInt 300 ]}
                   (one_hour / 2) 0 300 100
                   eq_refl eq_refl eq_refl eq_refl eq_refl _)).
  by vm_compute.
Defined.

(* ===================================================================== *)
(** * Further properties of the stateless derived metrics                 *)
(* ===================================================================== *)

Section MetricsMore.
Import Sensor.

Lemma number_type_error (v : value) (e : exn) :
  number v = Raise e -> exn_class e = TypeError.
Proof. unfold number. destruct (as_number v); [done |]. by intros [= <-]. Qed.

(** X19.  Self-consumption is exactly 100 when grid export plus battery
    charge is 0, as when both counters are missing; it is unavailable
    when a counter is [None]; and every value it returns lies in
    [0, 100]. *)
Theorem self_consumption_clamped (modbus_data cgi_data : snapshot) :
  let grid_export := dict_get_or cgi_data "total_grid_dc_ac" (VInt 0) in
  let battery_charge := dict_get_or cgi_data "total_inverter_ac_dc" (VInt 0) in
  let rate := _calculate_self_consumption modbus_data cgi_data in
  (grid_export = VNone \/ battery_charge = VNone -> rate = Ok None) /\
  (forall g b : Q,
      as_number grid_export = Some g -> as_number battery_charge = Some b ->
      (g + b == 0)%Q -> rate = Ok (Some 100%Q)) /\
  (forall r : Q, rate = Ok (Some r) -> (0 <= r <= 100)%Q) /\
  (forall e, rate = Raise e -> exn_class e = TypeError) /\
  _calculate_self_consumption modbus_data ∅ = Ok (Some 100%Q).
Proof.
  intros grid_export battery_charge rate.
  subst rate. unfold _calculate_self_consumption.
  fold grid_export battery_charge.
  split; [| split; [| split; [| split; [| reflexivity]]]].
  - intros [-> | ->]; [done |]. by rewrite orb_true_r.
  - intros g b Hg Hb Hsum.
    rewrite (as_number_not_none _ _ Hg), (as_number_not_none _ _ Hb).
    rewrite (number_of _ _ Hg), (number_of _ _ Hb). simpl.
    apply Qeq_bool_iff in Hsum. by rewrite Hsum.
  - intros r.
    destruct (is_none grid_export || is_none battery_charge); [done |].
    unfold number.
    destruct (as_number grid_export) as [g |],
             (as_number battery_charge) as [b |]; try done.
    destruct (Qeq_bool (g + b) 0); intros Hr; injection Hr as <-.
    + split; unfold Qle; simpl; lia.
    + split; [| apply Q.le_min_r].
      apply Q.min_glb; [apply Q.le_max_r | unfold Qle; simpl; lia].
  - intros e.
    destruct (is_none grid_export || is_none battery_charge); [done |].
    destruct (number grid_export) eqn:Hg.
    + destruct (number battery_charge) eqn:Hb.
      * by destruct (Qeq_bool (a + a0) 0).
      * intros [= <-]. by apply (number_type_error battery_charge).
    + destruct (number battery_charge) eqn:Hb; intros [= <-];
        by apply (number_type_error grid_export).
Qed.

Lemma clamp_inactive (x : Q) : (0 <= x <= 100)%Q -> (Qmin (Qmax x 0) 100 == x)%Q.
Proof.
  intros [Hlo Hhi].
  rewrite (Q.max_l x 0 Hlo). by apply Q.min_l.
Qed.

(** X20.  For counters that are not negative the clamps do nothing:
    self-sufficiency is 100 times battery discharge over grid import plus
    battery discharge, and self-consumption is 100 times battery charge
    over grid export plus battery charge. *)
Theorem rates_of_nonnegative_counters (modbus_data cgi_data : snapshot)
    (grid_import discharge grid_export charge : Q) :
  as_number (dict_get_or cgi_data "total_grid_ac_dc" (VInt 0)) = Some grid_import ->
  as_number (dict_get_or cgi_data "total_inverter_dc_ac" (VInt 0)) = Some discharge ->
  as_number (dict_get_or cgi_data "total_grid_dc_ac" (VInt 0)) = Some grid_export ->
  as_number (dict_get_or cgi_data "total_inverter_ac_dc" (VInt 0)) = Some charge ->
  (0 <= grid_import)%Q -> (0 <= discharge)%Q ->
  (0 <= grid_export)%Q -> (0 <= charge)%Q ->
  (0 < grid_import + discharge)%Q -> (0 < grid_export + charge)%Q ->
  (exists r, _calculate_self_sufficiency modbus_data cgi_data = Ok (Some r) /\
             (r == 100 * discharge / (grid_import + discharge))%Q) /\
  (exists r, _calculate_self_consumption modbus_data cgi_data = Ok (Some r) /\
             (r == 100 * charge / (grid_export + charge))%Q).
Proof.
  intros Hgi Hd Hge Hc Pgi Pd Pge Pc Psuff Pcons.
  assert (forall a b : Q, (0 <= b)%Q -> (0 <= a)%Q -> (0 < a + b)%Q ->
            (0 <= b / (a + b) * 100 <= 100)%Q) as Hrange.
  { intros a b Hb Ha Hab.
    assert (0 < / (a + b))%Q as Hinv by by apply Qinv_lt_0_compat.
    assert (b / (a + b) * 100 == 100 * (b * / (a + b)))%Q as -> by (unfold Qdiv; ring).
    assert (b * / (a + b) <= 1)%Q as Hle.
    { apply (Qmult_le_r _ _ (a + b)); [done |].
      assert (b * / (a + b) * (a + b) == b)%Q as -> by (field; lra). lra. }
    assert (0 <= b * / (a + b))%Q by (apply Qmult_le_0_compat; lra).
    split; lra. }
  split.
  - unfold _calculate_self_sufficiency.
    rewrite (as_number_not_none _ _ Hgi), (as_number_not_none _ _ Hd).
    rewrite (number_of _ _ Hgi), (number_of _ _ Hd). simpl.
    destruct (Qeq_bool (grid_import + discharge) 0) eqn:Hz.
    { apply Qeq_bool_iff in Hz. lra. }
    eexists. split; [reflexivity |].
    rewrite clamp_inactive by by apply Hrange.
    field. lra.
  - unfold _calculate_self_consumption.
    rewrite (as_number_not_none _ _ Hge), (as_number_not_none _ _ Hc).
    rewrite (number_of _ _ Hge), (number_of _ _ Hc). simpl.
    destruct (Qeq_bool (grid_export + charge) 0) eqn:Hz.
    { apply Qeq_bool_iff in Hz. lra. }
    eexists. split; [reflexivity |].
    assert (grid_export + charge - grid_export == charge)%Q as Hsub by ring.
    rewrite clamp_inactive.
    + field. lra.
    + rewrite Hsub. by apply Hrange.
Qed.
End MetricsMore.

Lemma rates_of_nonnegative_counters_witness :
  (exists r, Sensor._calculate_self_sufficiency busy_modbus busy_cgi
             = Ok (Some r) /\ (r == 100 * 8 / (10 + 8))%Q) /\
  (exists r, Sensor._calculate_self_consumption busy_modbus busy_cgi
             = Ok (Some r) /\ (r == 100 * 10 / (5 + 10))%Q).
Proof.
  apply (rates_of_nonnegative_counters busy_modbus busy_cgi 10 8 5 10
           eq_refl eq_refl eq_refl eq_refl); by vm_compute.
Defined.

Lemma self_consumption_clamped_witness :
  Sensor._calculate_self_consumption ∅
    {[ "total_grid_dc_ac" := VInt 0; "total_inverter_ac_dc" := VFloat 0 ]}
  = Ok (Some 100%Q).
Proof.
  pose proof (self_consumption_clamped ∅
                {[ "total_grid_dc_ac" := VInt 0;
                   "total_inverter_ac_dc" := VFloat 0 ]}) as (_ & Hzero & _).
  apply (Hzero 0%Q 0%Q eq_refl eq_refl). by vm_compute.
Defined.

Section BatteryEstimates.
Import Sensor.

(** X21.  The available energy is unavailable exactly when the state of
    charge or the installed capacity is missing or [None]; for numbers it
    is their product over 100, which lies between 0 and the capacity when
    the state of charge is a percentage and the capacity is not
    negative. *)
Theorem available_energy_bounds (modbus_data : snapshot) :
  let soc := dict_get modbus_data "soc" in
  let capacity := dict_get modbus_data "installed_capacity" in
  let available := _calculate_available_energy modbus_data in
  (available = Ok None <-> soc = VNone \/ capacity = VNone) /\
  (forall s c : Q,
      as_number soc = Some s -> as_number capacity = Some c ->
      available = Ok (Some (s * c / 100)%Q) /\
      ((0 <= s <= 100)%Q -> (0 <= c)%Q -> (0 <= s * c / 100 <= c)%Q)).
Proof.
  intros soc capacity available. subst available.
  unfold _calculate_available_energy. fold soc capacity.
  split.
  - split.
    + destruct soc; simpl; [by left | ..];
        destruct capacity; simpl; try discriminate; by right.
    + intros [-> | ->]; [done |]. by rewrite orb_true_r.
  - intros s c Hs Hc.
    rewrite (as_number_not_none _ _ Hs), (as_number_not_none _ _ Hc).
    rewrite (number_of _ _ Hs), (number_of _ _ Hc). simpl.
    split; [done |]. intros [Hlo Hhi] Hcap.
    assert (0 <= s * c)%Q by by apply Qmult_le_0_compat.
    assert (0 <= (100 - s) * c)%Q by (apply Qmult_le_0_compat; lra).
    split; qlra.
Qed.

(** X22.  The two time estimates never divide by zero.  Time to empty
    gives no value when the discharge power is missing, zero or negative,
    and time to full is unavailable when the charge power is; the only
    exception either raises is [TypeError].  With both powers positive
    the two estimates balance: the energy to drain plus the energy to
    fill is the installed capacity. *)
Theorem time_estimates_balance (modbus_data : snapshot) :
  let discharge_power := dict_get_or modbus_data "discharge_power" (VInt 0) in
  let charge_power := dict_get_or modbus_data "charge_power" (VInt 0) in
  let to_empty := _calculate_time_to_empty modbus_data in
  let to_full := _calculate_time_to_full modbus_data in
  (forall p : Q,
      as_number discharge_power = Some p -> (p <= 0)%Q ->
      forall minutes : Q, to_empty <> Ok (Some minutes)) /\
  (forall p : Q,
      as_number charge_power = Some p -> (p <= 0)%Q -> to_full = Ok None) /\
  (forall e, to_empty = Raise e \/ to_full = Raise e -> exn_class e = TypeError) /\
  (forall s c pd pc : Q,
      as_number (dict_get modbus_data "soc") = Some s ->
      as_number (dict_get modbus_data "installed_capacity") = Some c ->
      as_number discharge_power = Some pd -> as_number charge_power = Some pc ->
      (0 < pd)%Q -> (0 < pc)%Q ->
      exists a b : Q,
        to_empty = Ok (Some a) /\ to_full = Ok (Some b) /\
        (a * pd + b * pc == 60 * c)%Q).
Proof.
  intros discharge_power charge_power to_empty to_full.
  subst to_empty to_full.
  unfold _calculate_time_to_empty, _calculate_time_to_full,
    _calculate_available_energy.
  fold discharge_power charge_power.
  set (soc := dict_get modbus_data "soc").
  set (capacity := dict_get modbus_data "installed_capacity").
  split; [| split; [| split]].
  - intros p Hp Hle minutes.
    rewrite (as_number_not_none _ _ Hp), (number_of _ _ Hp).
    apply Qle_bool_iff in Hle. rewrite Hle.
    destruct (is_none soc || is_none capacity); [done |].
    by destruct (number soc), (number capacity).
  - intros p Hp Hle.
    rewrite (as_number_not_none _ _ Hp), (number_of _ _ Hp).
    apply Qle_bool_iff in Hle. rewrite Hle.
    by destruct (is_none soc), (is_none capacity).
  - intros e [He | He]; revert He.
    + destruct (is_none soc || is_none capacity); [done |].
      destruct (number soc) eqn:Hs; [| intros [= <-];
        by apply (number_type_error soc)].
      destruct (number capacity) eqn:Hc;
        [| intros [= <-]; by apply (number_type_error capacity)].
      destruct (is_none discharge_power); [done |].
      destruct (number discharge_power) eqn:Hd;
        [| intros [= <-]; by apply (number_type_error discharge_power)].
      by destruct (Qle_bool a1 0).
    + destruct (is_none soc || is_none capacity || is_none charge_power);
        [done |].
      destruct (number charge_power) eqn:Hp;
        [| intros [= <-]; by apply (number_type_error charge_power)].
      destruct (Qle_bool a 0); [done |].
      destruct (number soc) eqn:Hs.
      * destruct (number capacity) eqn:Hc; [done |].
        intros [= <-]. by apply (number_type_error capacity).
      * destruct (number capacity) eqn:Hc; intros [= <-];
          by apply (number_type_error soc).
  - intros s c pd pc Hs Hc Hpd Hpc Ppd Ppc.
    rewrite (as_number_not_none _ _ Hs), (as_number_not_none _ _ Hc),
      (as_number_not_none _ _ Hpd), (as_number_not_none _ _ Hpc).
    rewrite (number_of _ _ Hs), (number_of _ _ Hc), (number_of _ _ Hpd),
      (number_of _ _ Hpc). simpl.
    assert (Qle_bool pd 0 = false) as ->.
    { destruct (Qle_bool pd 0) eqn:Hle; [| done].
      apply Qle_bool_iff in Hle. lra. }
    assert (Qle_bool pc 0 = false) as ->.
    { destruct (Qle_bool pc 0) eqn:Hle; [| done].
      apply Qle_bool_iff in Hle. lra. }
    do 2 eexists. split; [reflexivity |]. split; [reflexivity |].
    field. split; lra.
Qed.


End BatteryEstimates.

(* ===================================================================== *)
(** * Further properties of the calculated sensors                        *)
(* ===================================================================== *)

Section DailyMore.
Import Sensor.

(** X24.  Without a CGI coordinator the calculated sensors work on an
    empty mapping: battery efficiency is unavailable, self-sufficiency and
    self-consumption are 100, and a daily sensor writes its running total
    as it stands, 0 after a change of day. *)
Theorem calculated_without_cgi (self : calculated) (modbus_data : snapshot)
    (today : string) :
  (_async_calculate battery_efficiency self (Some modbus_data) None today).2
  = Written None /\
  (_async_calculate self_sufficiency_rate self (Some modbus_data) None today).2
  = Written (Some 100%Q) /\
  (_async_calculate {| key := "selfConsumptionRate"; source_key := None |}
     self (Some modbus_data) None today).2
  = Written (Some 100%Q) /\
  (_async_calculate daily_net_grid_import self (Some modbus_data) None today).2
  = Written (Some (if date_differs (_last_reset_date self) today
                   then 0%Q else _daily_import self)) /\
  (_async_calculate daily_net_grid_export self (Some modbus_data) None today).2
  = Written (Some (if date_differs (_last_reset_date self) today
                   then 0%Q else _daily_export self)).
Proof.
  repeat split; unfold _async_calculate; simpl;
    unfold _calculate_daily_net_import, _calculate_daily_net_export;
    by destruct (date_differs (_last_reset_date self) today).
Qed.

(** X25.  The first tick of a new day starts the accumulator afresh: the
    total is 0 and 0 is written, the reset date is the new day, and the
    reading of this tick, whatever it is, is kept as the last reading
    without being compared with the one of the day before. *)
Theorem daily_import_new_day (self : calculated) (modbus_data cgi_data : snapshot)
    (today : string) :
  date_differs (_last_reset_date self) today = true ->
  let ticked :=
    _async_calculate daily_net_grid_import self (Some modbus_data)
      (Some cgi_data) today in
  _daily_import ticked.1 = 0%Q /\
  _last_import_total ticked.1 = dict_get cgi_data "total_grid_ac_dc" /\
  _last_reset_date ticked.1 = VStr today /\
  exists x : Q, ticked.2 = Written (Some x) /\ (x == 0)%Q.
Proof.
  intros Hday. unfold _async_calculate. simpl.
  unfold _calculate_daily_net_import. rewrite Hday. simpl.
  destruct (dict_get cgi_data "total_grid_ac_dc") eqn:Hv; simpl;
    repeat split; eexists; (split; [reflexivity | by vm_compute]).
Qed.

(** X26.  A tick without a reading loses nothing: on the day of the
    reset date it writes the running total and keeps the last reading, so
    that the reading of the next tick is compared with the last one
    seen. *)
Theorem daily_import_missing_reading (self : calculated)
    (cgi_data : snapshot) (today : string) (prev z : Z) :
  _last_reset_date self = VStr today ->
  _last_import_total self = VInt prev ->
  dict_get cgi_data "total_grid_ac_dc" = VNone ->
  let skipped :=
    _async_calculate daily_net_grid_import self (Some ∅) (Some cgi_data) today in
  skipped.2 = Written (Some (_daily_import self)) /\
  (_daily_import
     (_async_calculate daily_net_grid_import skipped.1 (Some ∅)
        (Some (counter_snapshot "total_grid_ac_dc" z)) today).1
   == _daily_import self + inject_Z (Z.max 0 (z - prev)))%Q.
Proof.
  intros Hdate Hlast Hmissing skipped.
  assert (skipped = (set_native_value (Some (_daily_import self)) self,
                     Written (Some (_daily_import self)))) as ->.
  { subst skipped. unfold _async_calculate. simpl.
    unfold _calculate_daily_net_import.
    by rewrite Hdate, date_same, Hmissing. }
  split; [done |].
  by destruct (import_tick (set_native_value (Some (_daily_import self)) self)
                 today z prev Hdate Hlast) as (_ & _ & Hsum).
Qed.

Lemma import_step_order (self : calculated) (cgi_data : snapshot)
    (today : string) :
  let self' := (_calculate_daily_net_import self cgi_data today).1 in
  ((0 <= _daily_import self)%Q -> (0 <= _daily_import self')%Q) /\
  (date_differs (_last_reset_date self) today = false ->
   (_daily_import self <= _daily_import self')%Q) /\
  _daily_export self' = _daily_export self.
Proof.
  unfold _calculate_daily_net_import.
  destruct (date_differs (_last_reset_date self) today); simpl;
    destruct (is_none (dict_get cgi_data "total_grid_ac_dc")); simpl;
    try (repeat split; intros; first [done | apply Qle_refl]).
  destruct (is_none (_last_import_total self)); simpl;
    [repeat split; intros; first [done | apply Qle_refl] |].
  destruct (number (dict_get cgi_data "total_grid_ac_dc")) as [cur |]; simpl;
    [| repeat split; intros; first [done | apply Qle_refl]].
  destruct (number (_last_import_total self)) as [last |]; simpl;
    [| repeat split; intros; first [done | apply Qle_refl]].
  destruct (Qlt_bool 0 (cur - last)) eqn:Hlt; simpl;
    [| repeat split; intros; first [done | apply Qle_refl]].
  apply Qlt_bool_iff in Hlt. repeat split; intros; lra.
Qed.

Lemma export_step_order (self : calculated) (cgi_data : snapshot)
    (today : string) :
  let self' := (_calculate_daily_net_export self cgi_data today).1 in
  ((0 <= _daily_export self)%Q -> (0 <= _daily_export self')%Q) /\
  (date_differs (_last_reset_date self) today = false ->
   (_daily_export self <= _daily_export self')%Q) /\
  _daily_import self' = _daily_import self.
Proof.
  unfold _calculate_daily_net_export.
  destruct (date_differs (_last_reset_date self) today); simpl;
    destruct (is_none (dict_get cgi_data "total_grid_dc_ac")); simpl;
    try (repeat split; intros; first [done | apply Qle_refl]).
  destruct (is_none (_last_export_total self)); simpl;
    [repeat split; intros; first [done | apply Qle_refl] |].
  destruct (number (dict_get cgi_data "total_grid_dc_ac")) as [cur |]; simpl;
    [| repeat split; intros; first [done | apply Qle_refl]].
  destruct (number (_last_export_total self)) as [last |]; simpl;
    [| repeat split; intros; first [done | apply Qle_refl]].
  destruct (Qlt_bool 0 (cur - last)) eqn:Hlt; simpl;
    [| repeat split; intros; first [done | apply Qle_refl]].
  apply Qlt_bool_iff in Hlt. repeat split; intros; lra.
Qed.

(** X27.  The daily totals are never negative and, within a day, never
    go down: whatever the description, the snapshots and the date of a
    tick, a total that is not negative stays so, and on the day of the
    reset date neither total decreases. *)
Theorem daily_totals_order (d : description) (self : calculated)
    (coordinator_data cgi_data : option snapshot) (today : string) :
  let self' := (_async_calculate d self coordinator_data cgi_data today).1 in
  ((0 <= _daily_import self)%Q -> (0 <= _daily_import self')%Q) /\
  ((0 <= _daily_export self)%Q -> (0 <= _daily_export self')%Q) /\
  (date_differs (_last_reset_date self) today = false ->
   (_daily_import self <= _daily_import self')%Q /\
   (_daily_export self <= _daily_export self')%Q).
Proof.
  unfold _async_calculate.
  destruct coordinator_data as [modbus_data |];
    [| repeat split; intros; first [done | apply Qle_refl]].
  set (cgi := match cgi_data with Some c => c | None => ∅ end).
  destruct (String.eqb (key d) "dailyNetGridImport").
  { destruct (import_step_order self cgi today) as (Hpos & Hup & Hother).
    simpl. rewrite Hother. repeat split; intros; auto; apply Qle_refl. }
  destruct (String.eqb (key d) "dailyNetGridExport").
  { destruct (export_step_order self cgi today) as (Hpos & Hup & Hother).
    simpl. rewrite Hother. repeat split; intros; auto; apply Qle_refl. }
  repeat case_match; simpl; repeat split; intros; first [done | apply Qle_refl].
Qed.

(** X28.  A reading that is not a number sticks.  Once the last reading
    kept is neither [None] nor a number, every tick of the same day that
    has a reading writes "unavailable" and changes nothing else: the
    subtraction raises before the last reading is replaced. *)
Theorem daily_import_bad_reading_sticks (self : calculated)
    (modbus_data cgi_data : snapshot) (today : string) :
  _last_reset_date self = VStr today ->
  is_none (_last_import_total self) = false ->
  as_number (_last_import_total self) = None ->
  is_none (dict_get cgi_data "total_grid_ac_dc") = false ->
  _async_calculate daily_net_grid_import self (Some modbus_data)
    (Some cgi_data) today
  = (set_native_value None self, Written None).
Proof.
  intros Hdate Hnone Hbad Hcur. unfold _async_calculate. simpl.
  unfold _calculate_daily_net_import.
  rewrite Hdate, date_same, Hcur, Hnone.
  assert (number (_last_import_total self)
          = Raise (Exn TypeError "unsupported operand type(s)")) as ->.
  { unfold number. by rewrite Hbad. }
  by destruct (number (dict_get cgi_data "total_grid_ac_dc")).
Qed.
End DailyMore.

Section RestoreDate.
Context `{PyBuiltins}.
Import Sensor.

(** X29.  The reset date survives a restart as long as the stored state
    reads as a number: restoring from the attributes the sensor exposes
    gives back its reset date.  If the stored state does not read as a
    number (as "unavailable" does not), nothing is restored, the date
    included. *)
Theorem reset_date_round_trip (d : description) (self : calculated)
    (text : string) :
  is_daily_key (key d) = true ->
  let stored_as :=
    {| state := text;
       attributes := default ∅ (extra_state_attributes d self) |} in
  match py_float_of_string text with
  | Some q =>
      _last_reset_date (calculated_restore d calculated_init (Some stored_as))
      = _last_reset_date self /\
      _attr_native_value (calculated_restore d calculated_init (Some stored_as))
      = Some q
  | None => calculated_restore d calculated_init (Some stored_as) = calculated_init
  end.
Proof.
  intros Hkey stored_as. subst stored_as.
  unfold calculated_restore, extra_state_attributes. rewrite Hkey. simpl.
  destruct (py_float_of_string text) as [q |]; [| done].
  rewrite bool_decide_eq_false_2.
  - simpl. unfold dict_get. by rewrite lookup_singleton_eq.
  - intros Hempty.
    apply (f_equal (fun m : snapshot => m !! "last_reset_date")) in Hempty.
    by rewrite lookup_singleton_eq, lookup_empty in Hempty.
Qed.
End RestoreDate.

(* ===================================================================== *)
(** * The further properties at concrete inputs                           *)
(* ===================================================================== *)

Lemma available_energy_bounds_witness :
  Sensor._calculate_available_energy busy_modbus
  = Ok (Some (50 * 6500 / 100)%Q) /\
  ((0 <= 50 <= 100)%Q -> (0 <= 6500)%Q -> (0 <= 50 * 6500 / 100 <= 6500)%Q).
Proof.
  exact (proj2 (available_energy_bounds busy_modbus) 50%Q 6500%Q eq_refl eq_refl).
Defined.

Lemma time_estimates_balance_witness :
  exists a b : Q,
    Sensor._calculate_time_to_empty busy_modbus = Ok (Some a) /\
    Sensor._calculate_time_to_full busy_modbus = Ok (Some b) /\
    (a * 300 + b * 400 == 60 * 6500)%Q.
Proof.
  destruct (time_estimates_balance busy_modbus) as (_ & _ & _ & Hbalance).
  apply (Hbalance 50%Q 6500%Q 300%Q 400%Q eq_refl eq_refl eq_refl eq_refl);
    by vm_compute.
Defined.


Lemma daily_import_new_day_witness :
  Sensor._daily_import
    (Sensor._async_calculate daily_net_grid_import mid_day (Some ∅)
       (Some (counter_snapshot "total_grid_ac_dc" 130)) "2024-05-02").1
  = 0%Q /\
  Sensor._last_import_total
    (Sensor._async_calculate daily_net_grid_import mid_day (Some ∅)
       (Some (counter_snapshot "total_grid_ac_dc" 130)) "2024-05-02").1
  = dict_get (counter_snapshot "total_grid_ac_dc" 130) "total_grid_ac_dc" /\
  Sensor._last_reset_date
    (Sensor._async_calculate daily_net_grid_import mid_day (Some ∅)
       (Some (counter_snapshot "total_grid_ac_dc" 130)) "2024-05-02").1
  = VStr "2024-05-02" /\
  exists x : Q,
    (Sensor._async_calculate daily_net_grid_import mid_day (Some ∅)
       (Some (counter_snapshot "total_grid_ac_dc" 130)) "2024-05-02").2
    = Sensor.Written (Some x) /\ (x == 0)%Q.
Proof.
  exact (daily_import_new_day mid_day ∅
           (counter_snapshot "total_grid_ac_dc" 130) "2024-05-02" eq_refl).
Defined.

Lemma daily_import_missing_reading_witness :
  (Sensor._async_calculate daily_net_grid_import mid_day (Some ∅) (Some ∅)
     "2024-05-01").2
  = Sensor.Written (Some (Sensor._daily_import mid_day)) /\
  (Sensor._daily_import
     (Sensor._async_calculate daily_net_grid_import
        (Sensor._async_calculate daily_net_grid_import mid_day (Some ∅)
           (Some ∅) "2024-05-01").1
        (Some ∅) (Some (counter_snapshot "total_grid_ac_dc" 118))
        "2024-05-01").1
   == Sensor._daily_import mid_day + inject_Z (Z.max 0 (118 - 110)))%Q.
Proof.
  exact (daily_import_missing_reading mid_day ∅ "2024-05-01" 110 118
           eq_refl eq_refl eq_refl).
Defined.

Lemma daily_totals_order_witness :
  (Sensor._daily_import mid_day
   <= Sensor._daily_import
        (Sensor._async_calculate daily_net_grid_import mid_day (Some ∅)
           (Some (counter_snapshot "total_grid_ac_dc" 118)) "2024-05-01").1)%Q
  /\
  (Sensor._daily_export mid_day
   <= Sensor._daily_export
        (Sensor._async_calculate daily_net_grid_import mid_day (Some ∅)
           (Some (counter_snapshot "total_grid_ac_dc" 118)) "2024-05-01").1)%Q.
Proof.
  destruct (daily_totals_order daily_net_grid_import mid_day (Some ∅)
              (Some (counter_snapshot "total_grid_ac_dc" 118)) "2024-05-01")
    as (_ & _ & Hday).
  exact (Hday eq_refl).
Defined.

Lemma daily_import_bad_reading_sticks_witness :
  Sensor._async_calculate daily_net_grid_import after_bad_reading (Some ∅)
    (Some (counter_snapshot "total_grid_ac_dc" 118)) "2024-05-01"
  = (Sensor.set_native_value None after_bad_reading, Sensor.Written None).
Proof.
  exact (daily_import_bad_reading_sticks after_bad_reading ∅
           (counter_snapshot "total_grid_ac_dc" 118) "2024-05-01"
           eq_refl eq_refl eq_refl eq_refl).
Defined.

Lemma reset_date_round_trip_witness :
  Sensor._last_reset_date
    (Sensor.calculated_restore (H := Decimal.builtins) daily_net_grid_import
       Sensor.calculated_init
       (Some {| Sensor.state := "5.0";
                Sensor.attributes :=
                  default ∅ (Sensor.extra_state_attributes
                               daily_net_grid_import mid_day) |}))
  = Sensor._last_reset_date mid_day /\
  Sensor._attr_native_value
    (Sensor.calculated_restore (H := Decimal.builtins) daily_net_grid_import
       Sensor.calculated_init
       (Some {| Sensor.state := "5.0";
                Sensor.attributes :=
                  default ∅ (Sensor.extra_state_attributes
                               daily_net_grid_import mid_day) |}))
  = Some (50 # 10)%Q.
Proof.
  exact (reset_date_round_trip (H := Decimal.builtins) daily_net_grid_import
           mid_day "5.0" eq_refl).
Defined.
